(** * TimeseriesClient: a shallow embedding of [timeseries_client.py]

    The facade of [gewv_timeseries_client] wraps an InfluxDB client.  This
    file embeds its methods as Rocq functions and proves the properties the
    specification states about them.

    - Text is [string]; Python's f-strings become concatenations.
    - Exceptions are values of [exn]; a method that can raise returns a
      [result].
    - Methods that talk to the InfluxDB client, or that mutate a list
      object, run in the monad [M] over a [world] holding the heap of list
      objects, the buckets of the store and the trace of calls made on the
      client's delegates. *)

From stdpp Require Import base option list strings gmap.
From Stdlib Require Import ZArith NArith Ascii String DecimalString Lia.

Local Open Scope string_scope.
Local Open Scope list_scope.

(** ** Text *)

Module Text.

(** The two characters the query literals need that a Rocq string literal
    cannot hold directly. *)
Definition nl : string := String "010"%char EmptyString.
Definition dq : string := String "034"%char EmptyString.

(** [spaces n] is the indentation the triple-quoted literals carry. *)
Fixpoint spaces (n : nat) : string :=
  match n with
  | O => EmptyString
  | S k => String " " (spaces k)
  end.

(** [s.startswith(pat)]. *)
Fixpoint starts_with (pat s : string) : bool :=
  match pat, s with
  | EmptyString, _ => true
  | String _ _, EmptyString => false
  | String p pat', String c s' => Ascii.eqb p c && starts_with pat' s'
  end.

(** [occurrences pat s] counts the positions of [s] at which [pat] starts. *)
Fixpoint occurrences (pat s : string) : nat :=
  match s with
  | EmptyString => if starts_with pat EmptyString then 1 else 0
  | String c s' => (if starts_with pat s then 1 else 0) + occurrences pat s'
  end.

(** The occurrences of [pat] in all the strings of a mapping. *)
Fixpoint occurrences_in_items (pat : string) (items : list (string * string))
    : nat :=
  match items with
  | [] => 0
  | (k, v) :: items' =>
      occurrences pat k + occurrences pat v + occurrences_in_items pat items'
  end.

(** The occurrences of [pat] that the caller's own strings bring along. *)
Definition carried (pat project : string) (fields : list (string * string))
    (precision : string) : nat :=
  occurrences pat project + occurrences_in_items pat fields +
  occurrences pat precision.

(** [s.endswith(suf)]. *)
Fixpoint ends_with (suf s : string) : bool :=
  String.eqb suf s ||
  match s with
  | EmptyString => false
  | String _ s' => ends_with suf s'
  end.

(** The concatenation of a list of strings. *)
Fixpoint join (parts : list string) : string :=
  match parts with
  | [] => EmptyString
  | x :: parts' => x +:+ join parts'
  end.

(** [s] occurs in [t] as a contiguous piece. *)
Definition substring_of (s t : string) : Prop :=
  exists pre post, t = pre +:+ s +:+ post.

(** Membership of a character in a string. *)
Fixpoint mem_char (c : ascii) (s : string) : bool :=
  match s with
  | EmptyString => false
  | String d s' => Ascii.eqb c d || mem_char c s'
  end.

(** Every character of [s] is drawn from [allowed]. *)
Fixpoint chars_in (allowed s : string) : bool :=
  match s with
  | EmptyString => true
  | String c s' => mem_char c allowed && chars_in allowed s'
  end.

(** Decimal rendering of a natural number, as [%d] does. *)
Definition dec (n : N) : string := NilEmpty.string_of_uint (N.to_uint n).

(** [%0wd]: the decimal rendering padded with zeros on the left up to
    width [w]; longer renderings are kept whole. *)
Fixpoint zeros (n : nat) : string :=
  match n with
  | O => EmptyString
  | S k => String "0" (zeros k)
  end.

Definition zpad (w : nat) (n : N) : string :=
  zeros (w - String.length (dec n)) +:+ dec n.

End Text.

Import Text.

(** ** Python values the facade receives *)

(** A [tzinfo] object, seen through the one method [isoformat] calls on it:
    [utcoffset] is what [tzinfo.utcoffset(dt)] returns for the datetime that
    carries the object, in microseconds ([None] when the object reports no
    offset).  The objects modelled are those whose [utcoffset] returns: one
    whose [utcoffset] raises, or returns a day or more, makes [isoformat]
    raise, and is not among them. *)
Record tz := { utcoffset : option Z }.

(** [datetime.datetime]: the calendar fields and the [tzinfo] attribute,
    which is [None] on a datetime built without a time zone. *)
Record datetime := {
  year : N; month : N; day : N;
  hour : N; minute : N; second : N; microsecond : N;
  tzinfo : option tz
}.

(** [datetime.utcoffset()]. *)
Definition dt_utcoffset (d : datetime) : option Z :=
  match tzinfo d with
  | None => None
  | Some z => utcoffset z
  end.

(** Python calls a datetime aware when its [tzinfo] is set and reports an
    offset, and naive otherwise. *)
Definition aware (d : datetime) : Prop := is_Some (dt_utcoffset d).
Definition naive (d : datetime) : Prop := dt_utcoffset d = None.

(** The offset suffix of [isoformat] (CPython's [_format_offset]):
    sign, hours and minutes, then seconds and microseconds when they are
    not zero. *)
Definition format_offset (off : option Z) : string :=
  match off with
  | None => ""
  | Some o =>
      let sign := if (o <? 0)%Z then "-" else "+" in
      let a := Z.to_N (Z.abs o) in
      let hh := (a / 3600000000)%N in
      let r := (a mod 3600000000)%N in
      let mm := (r / 60000000)%N in
      let ss := (r mod 60000000)%N in
      sign +:+ zpad 2 hh +:+ ":" +:+ zpad 2 mm +:+
      (if (ss =? 0)%N then ""
       else ":" +:+ zpad 2 (ss / 1000000)%N +:+
            (if (ss mod 1000000 =? 0)%N then ""
             else "." +:+ zpad 6 (ss mod 1000000)%N))
  end.

(** The date and time part of [isoformat] ([timespec='auto']: microseconds
    are written only when they are not zero). *)
Definition format_local (d : datetime) : string :=
  zpad 4 (year d) +:+ "-" +:+ zpad 2 (month d) +:+ "-" +:+ zpad 2 (day d) +:+
  "T" +:+ zpad 2 (hour d) +:+ ":" +:+ zpad 2 (minute d) +:+ ":" +:+
  zpad 2 (second d) +:+
  (if (microsecond d =? 0)%N then "" else "." +:+ zpad 6 (microsecond d)).

(** [datetime.isoformat()]. *)
Definition isoformat (d : datetime) : string :=
  format_local d +:+ format_offset (dt_utcoffset d).


(** The characters [isoformat] can write. *)
Definition iso_alphabet : string := "0123456789-T:.+".

(** What a caller can pass where a timestamp is expected: a datetime, or
    any other object, of which the facade only ever uses [str()]. *)
Inductive pyobj :=
  | PyDatetime (d : datetime)
  | PyOther (str : string).

(** ** Exceptions and results *)

Inductive exn :=
  | Exception (msg : string)
  | AttributeError (msg : string)
  | TypeError (msg : string)
  | ValueError (msg : string)
  | ApiException (status : option Z)
  | ClientError (msg : string)
  | OutsideModel (what : string).

Inductive result (A : Type) :=
  | Ok (a : A)
  | Raise (e : exn).
Arguments Ok {A} a.
Arguments Raise {A} e.

(** A computation over a mutable state [S] that may raise: it returns its
    outcome and the state it leaves behind, also when it raises. *)
Definition stx (S A : Type) : Type := S -> result A * S.

#[export] Instance stx_ret {S} : MRet (stx S) := fun _ a s => (Ok a, s).
#[export] Instance stx_bind {S} : MBind (stx S) := fun _ _ f m s =>
  match m s with
  | (Ok a, s') => f a s'
  | (Raise e, s') => (Raise e, s')
  end.

Definition raise {S A} (e : exn) : stx S A := fun s => (Raise e, s).
Definition modify {S} (f : S -> S) : stx S unit := fun s => (Ok tt, f s).

(** [for x in xs: body(x)]. *)
Fixpoint for_each {S A} (xs : list A) (body : A -> stx S unit) : stx S unit :=
  match xs with
  | [] => mret tt
  | x :: xs' => body x;; for_each xs' body
  end.

(** ** The query builder *)

(** The body of [build_query] runs over its local variable [query];
    [query = s] and [query += s] are the two statements it uses. *)
Definition assign (s : string) : stx string unit := modify (fun _ => s).
Definition append (s : string) : stx string unit := modify (fun q => q +:+ s).

(** [test_datetime]: the two checks of the static method, in order. *)
Definition test_datetime {S} (dt : pyobj) : stx S unit :=
  match dt with
  | PyOther s =>
      raise (Exception
        ("The delivered datetime " +:+ s +:+ " is not from type datetime."))
  | PyDatetime d =>
      match tzinfo d with
      | None =>
          raise (Exception
            ("The time " +:+ isoformat d +:+
             " has no timezone info. That is necassary."))
      | Some _ => mret tt
      end
  end.

(** The specification's name for what [test_datetime] raises. *)
Definition InvalidTimestampError (e : exn) : Prop :=
  exists what,
    e = Exception
          ("The delivered datetime " +:+ what +:+ " is not from type datetime.") \/
    e = Exception
          ("The time " +:+ what +:+ " has no timezone info. That is necassary.").

(** The objects [test_datetime] turns down: anything that is not a
    datetime, and a datetime whose [tzinfo] is [None]. *)
Definition turned_down (x : pyobj) : Prop :=
  match x with
  | PyOther _ => True
  | PyDatetime d => tzinfo d = None
  end.

(** The method call [x.isoformat()] on an arbitrary object. *)
Definition call_isoformat {S} (x : pyobj) : stx S string :=
  match x with
  | PyDatetime d => mret (isoformat d)
  | PyOther _ => raise (AttributeError "isoformat")
  end.

(** The [if]/[elif]/[elif] on the two time bounds: each bound that is
    given is checked, then the range stage is appended. *)
Definition time_range (start_time end_time : option pyobj) : stx string unit :=
  match start_time, end_time with
  | Some st, Some en =>
      test_datetime st;;
      test_datetime en;;
      s ← call_isoformat st;
      e ← call_isoformat en;
      append (nl +:+ spaces 16 +:+ "|> range(start: " +:+ s +:+ ", stop: " +:+ e +:+
              ")" +:+ nl +:+ spaces 12)
  | Some st, None =>
      test_datetime st;;
      s ← call_isoformat st;
      append (nl +:+ spaces 16 +:+ "|> range(start: " +:+ s +:+ ")" +:+
              nl +:+ spaces 12)
  | None, Some en =>
      test_datetime en;;
      e ← call_isoformat en;
      append (nl +:+ spaces 16 +:+ "|> range(stop: " +:+ e +:+ ")" +:+
              nl +:+ spaces 12)
  | None, None => mret tt
  end.

(** The statements of [build_query], in order.  [fields] is the dict as
    [items()] enumerates it; [start_time] and [end_time] are [None] or an
    object. *)
Definition build_query_body (project : string) (fields : list (string * string))
    (start_time end_time : option pyobj) (precision : string) : stx string unit :=
  assign (nl +:+ spaces 12 +:+ "from(bucket: " +:+ dq +:+ project +:+ dq +:+ ")" +:+
          nl +:+ spaces 8);;
  time_range start_time end_time;;
  for_each fields (fun fv =>
    append (nl +:+ spaces 16 +:+ "|> filter(fn: (r) => r[" +:+ dq +:+ fv.1 +:+ dq +:+
            "] == " +:+ dq +:+ fv.2 +:+ dq +:+ ")" +:+ nl +:+ spaces 12));;
  append (nl +:+ spaces 12 +:+ "|> aggregateWindow(every: " +:+ precision +:+
          ", fn: mean, createEmpty: true)" +:+ nl +:+ spaces 12 +:+
          "|> yield(name: " +:+ dq +:+ "mean" +:+ dq +:+ ")" +:+ nl +:+ spaces 8).

(** [build_query]: [return query] when the body ran through, the exception
    otherwise. *)
Definition build_query (project : string) (fields : list (string * string))
    (start_time end_time : option pyobj) (precision : string) : result string :=
  match build_query_body project fields start_time end_time precision "" with
  | (Ok _, query) => Ok query
  | (Raise e, _) => Raise e
  end.

(** The value of the local [query] when [build_query] is left, by [return]
    or by an exception: all the text the call has assembled. *)
Definition assembled (project : string) (fields : list (string * string))
    (start_time end_time : option pyobj) (precision : string) : string :=
  (build_query_body project fields start_time end_time precision "").2.

(** *** The stages of a query, as the specification writes them *)

Module Flux.

Definition from_clause (project : string) : string :=
  "from(bucket: " +:+ dq +:+ project +:+ dq +:+ ")".

Definition range_both (start stop : string) : string :=
  "range(start: " +:+ start +:+ ", stop: " +:+ stop +:+ ")".

Definition range_start (start : string) : string :=
  "range(start: " +:+ start +:+ ")".

Definition range_stop (stop : string) : string :=
  "range(stop: " +:+ stop +:+ ")".

Definition filter_clause (fv : string * string) : string :=
  "filter(fn: (r) => r[" +:+ dq +:+ fv.1 +:+ dq +:+ "] == " +:+ dq +:+ fv.2 +:+
  dq +:+ ")".

Definition aggregate_clause (precision : string) : string :=
  "aggregateWindow(every: " +:+ precision +:+ ", fn: mean, createEmpty: true)".

Definition yield_clause : string := "yield(name: " +:+ dq +:+ "mean" +:+ dq +:+ ")".

(** The layout the literals of [build_query] put around the stages: a new
    line and an indentation before, a new line and an indentation after,
    and the pipe-forward operator before every stage but the first. *)
Definition opening (project : string) : string :=
  nl +:+ spaces 12 +:+ from_clause project +:+ nl +:+ spaces 8.

Definition piped (clause : string) : string :=
  nl +:+ spaces 16 +:+ "|> " +:+ clause +:+ nl +:+ spaces 12.

Definition filters (fields : list (string * string)) : string :=
  join (map (fun fv => piped (filter_clause fv)) fields).

Definition closing (precision : string) : string :=
  nl +:+ spaces 12 +:+ "|> " +:+ aggregate_clause precision +:+
  nl +:+ spaces 12 +:+ "|> " +:+ yield_clause +:+ nl +:+ spaces 8.

(** The range stage each combination of datetime bounds gives. *)
Inductive range_piece : option pyobj -> option pyobj -> string -> Prop :=
  | piece_both s e :
      range_piece (Some (PyDatetime s)) (Some (PyDatetime e))
        (piped (range_both (isoformat s) (isoformat e)))
  | piece_start s :
      range_piece (Some (PyDatetime s)) None (piped (range_start (isoformat s)))
  | piece_stop e :
      range_piece None (Some (PyDatetime e)) (piped (range_stop (isoformat e)))
  | piece_none : range_piece None None "".

End Flux.

(** The defaults of the signature. *)
Definition default_fields : list (string * string) := [].
Definition default_precision : string := "5m".

(** Two aware datetimes and two naive ones, for the examples:
    2021-03-01T00:00:00+01:00 and 2021-03-02T12:30:00.5-05:30, and twice
    2021-03-01T00:00:00. *)
Definition sample_start : datetime :=
  {| year := 2021; month := 3; day := 1; hour := 0; minute := 0; second := 0;
     microsecond := 0; tzinfo := Some {| utcoffset := Some 3600000000%Z |} |}.

Definition sample_end : datetime :=
  {| year := 2021; month := 3; day := 2; hour := 12; minute := 30; second := 0;
     microsecond := 500000;
     tzinfo := Some {| utcoffset := Some (-19800000000)%Z |} |}.

Definition sample_naive : datetime :=
  {| year := 2021; month := 3; day := 1; hour := 0; minute := 0; second := 0;
     microsecond := 0; tzinfo := None |}.

(** The same instant of the clock with a [tzinfo] object whose [utcoffset]
    returns [None]: such a datetime is naive as well. *)
Definition sample_no_offset : datetime :=
  {| year := 2021; month := 3; day := 1; hour := 0; minute := 0; second := 0;
     microsecond := 0; tzinfo := Some {| utcoffset := None |} |}.

(** ** The world outside the facade *)

(** Python objects whose truth value the facade tests. *)
Inductive value :=
  | VNone
  | VBool (b : bool)
  | VObject (cls : string)
  | VBoundMethod (name : string).

(** [bool(v)]: [None] and [False] are false; an object without [__bool__]
    or [__len__], and so every bound method, is true. *)
Definition truthy (v : value) : bool :=
  match v with
  | VNone => false
  | VBool b => b
  | VObject _ => true
  | VBoundMethod _ => true
  end.

(** A pandas frame: the row labels and the named columns, each column
    holding one cell per row. *)
Record DataFrame := {
  index : list string;
  columns : list (string * list string)
}.

Definition Point := string.
Definition FluxTable := list (string * string).

(** References to Python list objects. *)
Definition loc := positive.

(** What the facade does to the InfluxDB client and its delegates. *)
Inductive event :=
  | EvNewClient (url token org : string)
  | EvWriteApi
  | EvQueryApi
  | EvBucketsApi
  | EvHealth
  | EvCreateBucket (bucket_name : string)
  | EvQuery (query : string)
  | EvQueryDataFrame (query : string)
  | EvWritePoints (bucket : string) (record : list Point)
  | EvWriteFrame (bucket : string) (record : DataFrame)
      (data_frame_measurement_name : string)
      (data_frame_tag_columns : loc) (tag_names : list string).

(** [pd.DataFrame(index=df.index)]: a frame over the same rows, without
    columns. *)
Definition empty_on (ix : list string) : DataFrame :=
  {| index := ix; columns := [] |}.

(** [len(df)] is the number of rows. *)
Definition len (df : DataFrame) : nat := List.length (index df).

(** The columns after [df[name] = values]: an existing column of that name
    is overwritten in place, a new one is added on the right. *)
Fixpoint set_column (name : string) (values : list string)
    (cols : list (string * list string)) : list (string * list string) :=
  match cols with
  | [] => [(name, values)]
  | (n, vs) :: cols' =>
      if bool_decide (n = name) then (n, values) :: cols'
      else (n, vs) :: set_column name values cols'
  end.

(** [df[name] = values] for a Python list [values]: pandas refuses a list
    whose length is not the number of rows. *)
Definition setitem (df : DataFrame) (name : string) (values : list string)
    : result DataFrame :=
  if bool_decide (List.length values = len df)
  then Ok {| index := index df; columns := set_column name values (columns df) |}
  else Raise (ValueError "Length of values does not match length of index").

(** [pd.concat([a, b], axis=1)] for two frames over the same index: the
    columns of [a], then those of [b], row by row.  pandas realigns the rows
    when the indexes differ; that case is left out ([None]). *)
Definition concat_axis1 (a b : DataFrame) : option DataFrame :=
  if bool_decide (index a = index b)
  then Some {| index := index a; columns := columns a ++ columns b |}
  else None.

(** The keyword arguments [get_points] and [get_dataframe] pass on to
    [build_query]; [kw_other] names any keyword [build_query] does not
    have. *)
Record kwargs := {
  kw_project : option string;
  kw_fields : option (list (string * string));
  kw_start_time : option pyobj;
  kw_end_time : option pyobj;
  kw_precision : option string;
  kw_other : list string
}.

(** The list object created once for the default [tag_columns = []]. *)
Definition default_tag_columns : loc := 1%positive.

Definition lift {S A} (r : result A) : stx S A := fun s => (r, s).

(** [self.build_query] applied to the unpacked keyword arguments. *)
Definition build_query_kw (kw : kwargs) : result string :=
  match kw_other kw with
  | k :: _ =>
      Raise (TypeError
        ("build_query() got an unexpected keyword argument '" +:+ k +:+ "'"))
  | [] =>
      match kw_project kw with
      | None =>
          Raise (TypeError
            "build_query() missing 1 required positional argument: 'project'")
      | Some project =>
          build_query project (default default_fields (kw_fields kw))
            (kw_start_time kw) (kw_end_time kw)
            (default default_precision (kw_precision kw))
      end
  end.

Section Facade.

(** The state of the time-series store behind the client. *)
Context {store : Type}.

(** An [InfluxDBClient], by what its calls do to the store and answer. *)
Record InfluxDBClient := {
  health_of : stx store value;
  create_bucket_of : string -> stx store unit;
  query_of : string -> stx store (list FluxTable);
  query_data_frame_of : string -> stx store DataFrame;
  write_points_of : string -> list Point -> stx store unit;
  write_frame_of : string -> DataFrame -> string -> list string -> stx store unit
}.

(** The library's constructor [InfluxDBClient(url=, token=, org=)]. *)
Variable connect_to : string -> string -> string -> InfluxDBClient.

Record world := {
  heap : gmap loc (list string);
  db : store;
  trace : list event
}.

Definition M := stx world.

Definition log (e : event) : M unit :=
  modify (fun w => {| heap := heap w; db := db w; trace := trace w ++ [e] |}).

(** A call on the client: it is traced, then runs on the store. *)
Definition on_store {A} (c : stx store A) : M A :=
  fun w =>
    let '(r, d) := c (db w) in
    (r, {| heap := heap w; db := d; trace := trace w |}).

Definition call {A} (e : event) (c : stx store A) : M A :=
  log e;; on_store c.

(** The delegates [__init__] derives from the client. *)
Inductive write_api := WriteApi (c : InfluxDBClient).
Inductive query_api := QueryApi (c : InfluxDBClient).
Inductive buckets_api := BucketsApi (c : InfluxDBClient).

Record TimeseriesClient := {
  _client : InfluxDBClient;
  _write_api : write_api;
  _query_api : query_api;
  _bucket_api : buckets_api
}.

(** [str(port)] in the f-string of the URL. *)
Definition str_int (z : Z) : string := NilEmpty.string_of_int (Z.to_int z).

Definition __init__ (host : option string) (port : option Z)
    (organization : string) (token : option string)
    (client : option InfluxDBClient) : M TimeseriesClient :=
  c ← match client with
      | None =>
          match host with
          | None => raise (Exception "Missing Host Address for Timeseries DB Client.")
          | Some h =>
              match port with
              | None => raise (Exception "Missing Port for Timeseries DB Client.")
              | Some p =>
                  match token with
                  | None => raise (Exception "Missing Token for Timeseries DB Client.")
                  | Some t =>
                      let url := "https://" +:+ h +:+ ":" +:+ str_int p in
                      log (EvNewClient url t organization);;
                      mret (connect_to url t organization)
                  end
              end
          end
      | Some c => mret c
      end;
  log EvWriteApi;;
  log EvQueryApi;;
  log EvBucketsApi;;
  mret {| _client := c; _write_api := WriteApi c; _query_api := QueryApi c;
          _bucket_api := BucketsApi c |}.

Definition default_organization : string := "GEWV".

(** The specification's name for what [__init__] raises. *)
Definition ConfigurationError (e : exn) : Prop :=
  e = Exception "Missing Host Address for Timeseries DB Client." \/
  e = Exception "Missing Port for Timeseries DB Client." \/
  e = Exception "Missing Token for Timeseries DB Client.".

Definition health (self : TimeseriesClient) : M value :=
  call EvHealth (health_of (_client self)).

Definition connect (self : TimeseriesClient) : M unit :=
  h ← health self;
  if negb (truthy h) then raise (Exception "Influx DB is not reachable.")
  else mret tt.

(** [try ... except ApiException as err: if err.status != 422: raise]. *)
Definition create_bucket (self : TimeseriesClient) (bucket : string) : M unit :=
  fun w =>
    let 'BucketsApi c := _bucket_api self in
    match call (EvCreateBucket bucket) (create_bucket_of c bucket) w with
    | (Raise (ApiException status), w') =>
        if negb (bool_decide (status = Some 422%Z))
        then (Raise (ApiException status), w')
        else (Ok tt, w')
    | other => other
    end.

(** The attribute [self.health], not called: a bound method. *)
Definition health_attr (self : TimeseriesClient) : value :=
  VBoundMethod "health".

Definition get_points (self : TimeseriesClient) (kw : kwargs)
    : M (list FluxTable) :=
  if negb (truthy (health_attr self))
  then raise (Exception "Influx DB is not reachable or unhealthy.")
  else
    query ← lift (build_query_kw kw);
    let 'QueryApi c := _query_api self in
    call (EvQuery query) (query_of c query).

Definition get_dataframe (self : TimeseriesClient) (kw : kwargs)
    : M DataFrame :=
  if negb (truthy (health_attr self))
  then raise (Exception "Influx DB is not reachable or unhealthy.")
  else
    query ← lift (build_query_kw kw);
    let 'QueryApi c := _query_api self in
    call (EvQueryDataFrame query) (query_data_frame_of c query).

Definition write_points (self : TimeseriesClient) (project : string)
    (points : list Point) : M unit :=
  let 'WriteApi c := _write_api self in
  call (EvWritePoints project points) (write_points_of c project points).

(** [xs.append(x)] on the list object at [l]. *)
Definition list_append (l : loc) (x : string) : M unit :=
  modify (fun w =>
    {| heap := alter (fun xs => xs ++ [x]) l (heap w); db := db w;
       trace := trace w |}).

(** The elements of the list object at [l]. *)
Definition list_read (l : loc) : M (list string) :=
  fun w => (Ok (default [] (heap w !! l)), w).

(** [self._write_api.write(bucket=, record=, data_frame_measurement_name=,
    data_frame_tag_columns=)]: the delegate receives the list object and
    reads its elements when called. *)
Definition write_frame (self : TimeseriesClient) (bucket : string)
    (record : DataFrame) (measurement_name : string) (tag_columns : loc)
    : M unit :=
  names ← list_read tag_columns;
  let 'WriteApi c := _write_api self in
  call (EvWriteFrame bucket record measurement_name tag_columns names)
       (write_frame_of c bucket record measurement_name names).

(** The loop [for tag_name, tag in additional_tags.items()], threading the
    local [tags_dataframe]. *)
Fixpoint tag_loop (items : list (string * string)) (tag_columns : loc)
    (dataframe tags_dataframe : DataFrame) : M DataFrame :=
  match items with
  | [] => mret tags_dataframe
  | (tag_name, tag) :: items' =>
      list_append tag_columns tag_name;;
      tags_dataframe' ←
        lift (setitem tags_dataframe tag_name (replicate (len dataframe) tag));
      tag_loop items' tag_columns dataframe tags_dataframe'
  end.

(** [write_a_dataframe]; an omitted [tag_columns] is the default list
    object, an omitted [additional_tags] is [None]. *)
Definition write_a_dataframe (self : TimeseriesClient) (project : string)
    (measurement_name : string) (dataframe : DataFrame)
    (tag_columns : option loc)
    (additional_tags : option (list (string * string))) : M unit :=
  let tag_columns := default default_tag_columns tag_columns in
  match additional_tags with
  | None => write_frame self project dataframe measurement_name tag_columns
  | Some tags =>
      tags_dataframe ←
        tag_loop tags tag_columns dataframe (empty_on (index dataframe));
      match concat_axis1 dataframe tags_dataframe with
      | Some combined_frames =>
          write_frame self project combined_frames measurement_name tag_columns
      | None => raise (OutsideModel "pd.concat over differing indexes")
      end
  end.

End Facade.

Arguments InfluxDBClient : clear implicits.
Arguments world : clear implicits.
Arguments TimeseriesClient : clear implicits.
Arguments M : clear implicits.

(** *** A store that keeps buckets *)

(** Modelled from the spec: the bucket administration of the store, which
    is not part of this repository.  A bucket that already exists is
    refused with the conflict status 422; a new one is added. *)
Definition store_create_bucket (name : string) : stx (gset string) unit :=
  fun buckets =>
    if bool_decide (name ∈ buckets)
    then (Raise (ApiException (Some 422%Z)), buckets)
    else (Ok tt, {[name]} ∪ buckets).

(** A client over that store; only bucket creation touches the store. *)
Definition bucket_store_client : InfluxDBClient (gset string) :=
  {| health_of := mret (VObject "HealthCheck");
     create_bucket_of := store_create_bucket;
     query_of := fun _ => mret [];
     query_data_frame_of := fun _ => mret (empty_on []);
     write_points_of := fun _ _ => mret tt;
     write_frame_of := fun _ _ _ _ => mret tt |}.

(** The number of [health()] calls in a trace. *)
Definition is_health (ev : event) : bool :=
  match ev with
  | EvHealth => true
  | _ => false
  end.

Definition health_calls (t : list event) : nat :=
  List.length (List.filter is_health t).

(** The column a tag gives on a frame of [n] rows. *)
Definition tag_column (n : nat) (kv : string * string)
    : string * list string :=
  (kv.1, replicate n kv.2).

(** The frame of the specification's example: three rows, a tag column
    [device] and a field column [temp]. *)
Definition sample_frame : DataFrame :=
  {| index := ["0"; "1"; "2"];
     columns := [("device", ["d1"; "d1"; "d2"]); ("temp", ["20"; "21"; "19"])] |}.

(** A caller's own list object [["device"]], next to the default one. *)
Definition caller_list : loc := 2%positive.

Definition sample_heap : gmap loc (list string) :=
  {[default_tag_columns := []; caller_list := ["device"]]}.

(** A facade over that client, and a world where the default list object
    of [write_a_dataframe] is still empty and no bucket exists. *)
Definition store_facade : TimeseriesClient (gset string) :=
  {| _client := bucket_store_client;
     _write_api := WriteApi bucket_store_client;
     _query_api := QueryApi bucket_store_client;
     _bucket_api := BucketsApi bucket_store_client |}.

Definition fresh_world : world (gset string) :=
  {| heap := {[default_tag_columns := []]}; db := ∅; trace := [] |}.

(** *** Further vocabulary for the properties below *)

(** The ASCII white space [str.strip] removes: tab to carriage return, the
    four separators 28 to 31, and the blank. *)
Definition is_space (c : ascii) : bool :=
  let n := nat_of_ascii c in
  Nat.leb 9 n && Nat.leb n 13 || Nat.leb 28 n && Nat.leb n 31 || Nat.eqb n 32.

Fixpoint lstrip (s : string) : string :=
  match s with
  | EmptyString => EmptyString
  | String c s' => if is_space c then lstrip s' else s
  end.

Fixpoint rstrip (s : string) : string :=
  match s with
  | EmptyString => EmptyString
  | String c s' =>
      match rstrip s' with
      | EmptyString => if is_space c then EmptyString else String c EmptyString
      | r => String c r
      end
  end.

(** [s.strip()]. *)
Definition strip (s : string) : string := rstrip (lstrip s).


(** A bound [build_query] lets through: none, or a datetime whose [tzinfo]
    is set. *)
Definition accepted (x : option pyobj) : bool :=
  match x with
  | None => true
  | Some (PyDatetime d) =>
      match tzinfo d with
      | Some _ => true
      | None => false
      end
  | Some (PyOther _) => false
  end.

(** The number of range stages the time-range block emits. *)
Definition bounded (st en : option pyobj) : nat :=
  match st, en with
  | None, None => 0
  | _, _ => 1
  end.

(** [from_env_properties]: the client is the one the library builds from
    the environment ([InfluxDBClient.from_env_properties()], passed in here
    as [env_client]); the facade is constructed around it with every other
    argument at its default. *)
Definition from_env_properties {store : Type}
    (connect_to : string -> string -> string -> InfluxDBClient store)
    (env_client : InfluxDBClient store) : M store (TimeseriesClient store) :=
  __init__ connect_to None None default_organization None (Some env_client).

(** A frame whose columns all hold one cell per row. *)
Definition rectangular (df : DataFrame) : Prop :=
  Forall (fun col : string * list string => List.length col.2 = len df)
         (columns df).

(** [xs] written [n] times in a row. *)
Fixpoint repeated {A} (n : nat) (xs : list A) : list A :=
  match n with
  | O => []
  | S k => repeated k xs ++ xs
  end.

(** The world after [n] calls of [write_a_dataframe] in a row that omit
    [tag_columns] and pass the same tags, whatever each call returned. *)
Fixpoint after_writes {store : Type} (n : nat) (self : TimeseriesClient store)
    (project measurement_name : string) (dataframe : DataFrame)
    (tags : list (string * string)) (w : world store) : world store :=
  match n with
  | O => w
  | S k =>
      (write_a_dataframe self project measurement_name dataframe None
         (Some tags)
         (after_writes k self project measurement_name dataframe tags w)).2
  end.

(** * Properties *)

(** ** Text *)

Section TextFacts.

Lemma append_assoc (a b c : string) : (a +:+ b) +:+ c = a +:+ (b +:+ c).
Proof.
  induction a as [|x a IH]; [reflexivity|].
  change (String x ((a +:+ b) +:+ c) = String x (a +:+ (b +:+ c))).
  now f_equal.
Qed.

Lemma append_nil_r (a : string) : a +:+ "" = a.
Proof.
  induction a as [|x a IH]; [reflexivity|].
  change (String x (a +:+ "") = String x a). now f_equal.
Qed.

Lemma join_app (xs ys : list string) : join (xs ++ ys) = join xs +:+ join ys.
Proof.
  induction xs as [|x xs IH]; simpl; [reflexivity|].
  now rewrite IH, append_assoc.
Qed.

Lemma mem_char_cons_false c p pat :
  mem_char c (String p pat) = false -> Ascii.eqb p c = false /\ mem_char c pat = false.
Proof.
  simpl. intros H. apply orb_false_iff in H as [H1 H2]. split; [|exact H2].
  rewrite Ascii.eqb_sym. exact H1.
Qed.

(** A character that [pat] does not contain ends every match attempt: what
    follows it cannot matter. *)
Lemma starts_with_cut pat c a b :
  mem_char c pat = false ->
  starts_with pat (a +:+ String c b) = starts_with pat a.
Proof.
  revert a. induction pat as [|p pat IH]; intros a Hc; [now destruct a|].
  apply mem_char_cons_false in Hc as [Hp Hc].
  destruct a as [|x a]; simpl.
  - now rewrite Hp.
  - now rewrite IH.
Qed.

Lemma occurrences_nil pat : pat <> "" -> occurrences pat "" = 0.
Proof. destruct pat; [congruence | reflexivity]. Qed.

Lemma occurrences_skip pat c s :
  pat <> "" -> mem_char c pat = false ->
  occurrences pat (String c s) = occurrences pat s.
Proof.
  intros Hne Hc. destruct pat as [|p pat]; [congruence|].
  apply mem_char_cons_false in Hc as [Hp _].
  cbn [occurrences starts_with]. now rewrite Hp.
Qed.

(** Occurrences of [pat] never straddle a character [pat] does not
    contain. *)
Lemma occurrences_cut pat c a b :
  pat <> "" -> mem_char c pat = false ->
  occurrences pat (a +:+ String c b) = occurrences pat a + occurrences pat b.
Proof.
  intros Hne Hc. induction a as [|x a IH].
  - change ("" +:+ String c b) with (String c b).
    rewrite occurrences_skip, occurrences_nil by assumption. reflexivity.
  - change (String x a +:+ String c b) with (String x (a +:+ String c b)).
    cbn [occurrences]. rewrite IH.
    change (String x (a +:+ String c b)) with (String x a +:+ String c b).
    rewrite starts_with_cut by assumption. lia.
Qed.

Lemma occurrences_absent p pat s :
  mem_char p s = false -> occurrences (String p pat) s = 0.
Proof.
  induction s as [|c s IH]; [reflexivity|].
  simpl mem_char. intros H. apply orb_false_iff in H as [H1 H2].
  cbn [occurrences starts_with]. rewrite H1, IH by assumption. reflexivity.
Qed.

Lemma chars_in_app al a b :
  chars_in al (a +:+ b) = chars_in al a && chars_in al b.
Proof.
  induction a as [|x a IH]; simpl; [reflexivity|].
  now rewrite IH, andb_assoc.
Qed.

Lemma chars_in_absent al c s :
  chars_in al s = true -> mem_char c al = false -> mem_char c s = false.
Proof.
  intros Hs Hc. induction s as [|x s IH]; [reflexivity|].
  simpl in Hs. apply andb_true_iff in Hs as [Hx Hs].
  simpl. rewrite IH by assumption. rewrite orb_false_r.
  destruct (Ascii.eqb_spec c x) as [->|]; [congruence | reflexivity].
Qed.

Lemma chars_in_uint u : chars_in iso_alphabet (NilEmpty.string_of_uint u) = true.
Proof. induction u; simpl; try reflexivity; exact IHu. Qed.

Lemma chars_in_zeros n : chars_in iso_alphabet (zeros n) = true.
Proof. induction n; simpl; [reflexivity | exact IHn]. Qed.

Lemma chars_in_zpad w n : chars_in iso_alphabet (zpad w n) = true.
Proof.
  unfold zpad, dec. now rewrite chars_in_app, chars_in_zeros, chars_in_uint.
Qed.

End TextFacts.

(** ** The query builder *)

Import Flux.

#[local] Arguments String.append : simpl nomatch.
#[local] Arguments filters : simpl never.

Ltac run := unfold mbind, stx_bind, mret, stx_ret, raise, append, assign, modify.

(** Unfold the stages and bring both sides to right-nested concatenations. *)
Ltac layout :=
  unfold opening, closing, piped, from_clause, range_both, range_start,
    range_stop, filter_clause, aggregate_clause, yield_clause;
  rewrite ?append_assoc.

(** Count through the literals, splitting at the characters a stage name
    cannot contain. *)
Ltac count :=
  layout; unfold nl, dq;
  repeat first
    [ progress cbn
    | rewrite occurrences_cut by (discriminate || reflexivity)
    | rewrite occurrences_nil by discriminate ].

Section Builder.


Lemma for_each_append (g : string * string -> string) fields (q : string) :
  for_each fields (fun fv => append (g fv)) q = (Ok tt, q +:+ join (map g fields)).
Proof.
  revert q. induction fields as [|fv fields IH]; intros q.
  - cbn. now rewrite append_nil_r.
  - cbn [for_each map join]. run. fold (@append (g fv)).
    unfold mbind, stx_bind in IH. cbn. rewrite IH. now rewrite append_assoc.
Qed.

(** A bound that is a datetime with a [tzinfo] passes the check and is then
    formatted. *)
Lemma test_datetime_ok {S} d z (s : S) :
  tzinfo d = Some z -> test_datetime (PyDatetime d) s = (Ok tt, s).
Proof. intros H. unfold test_datetime. now rewrite H. Qed.

(** The time-range block leaves [query] alone or appends to it; what it
    does can be read off a run on the empty string. *)
Lemma time_range_frame st en (q : string) :
  time_range st en q =
    match time_range st en "" with
    | (Ok _, piece) => (Ok tt, q +:+ piece)
    | (Raise e, _) => (Raise e, q)
    end.
Proof.
  destruct st as [[s|s]|], en as [[e|e]|]; cbn; run;
    repeat match goal with
    | |- context [tzinfo ?d] => destruct (tzinfo d)
    end; cbn; try reflexivity.
  now rewrite append_nil_r.
Qed.

Lemma filters_literal fields :
  join (map (fun fv : string * string =>
    nl +:+ spaces 16 +:+ "|> filter(fn: (r) => r[" +:+ dq +:+ fv.1 +:+ dq +:+
    "] == " +:+ dq +:+ fv.2 +:+ dq +:+ ")" +:+ nl +:+ spaces 12) fields)
  = filters fields.
Proof.
  unfold filters. f_equal. apply map_ext. intros fv. layout. reflexivity.
Qed.

(** The text [build_query] assembles, stage by stage. *)
Lemma build_query_body_run project fields st en precision (q0 : string) :
  build_query_body project fields st en precision q0 =
    match time_range st en "" with
    | (Ok _, piece) =>
        (Ok tt, opening project +:+ piece +:+ filters fields +:+ closing precision)
    | (Raise e, _) => (Raise e, opening project)
    end.
Proof.
  unfold build_query_body.
  unfold mbind at 1, stx_bind at 1. cbn [assign modify].
  unfold mbind at 1, stx_bind at 1. rewrite time_range_frame.
  destruct (time_range st en "") as [[[]|e] piece]; [|now layout].
  unfold mbind, stx_bind.
  rewrite for_each_append, filters_literal. unfold append, modify.
  f_equal. layout. reflexivity.
Qed.

(** *** Counting stages

    The literals put a quote, a blank, a comma or a new line next to every
    interpolated string, and neither [range(] nor [filter(] contains one of
    those: an occurrence lies in a literal or inside one interpolated
    string. *)


Lemma filters_cons fv fields :
  filters (fv :: fields) = piped (filter_clause fv) +:+ filters fields.
Proof. reflexivity. Qed.

Lemma range_in_opening project :
  occurrences "range(" (opening project) = occurrences "range(" project.
Proof. count. lia. Qed.

Lemma filter_in_opening project :
  occurrences "filter(" (opening project) = occurrences "filter(" project.
Proof. count. lia. Qed.

Lemma range_in_closing a precision :
  occurrences "range(" (a +:+ closing precision) =
  occurrences "range(" a + occurrences "range(" precision.
Proof. count. lia. Qed.

Lemma filter_in_closing a precision :
  occurrences "filter(" (a +:+ closing precision) =
  occurrences "filter(" a + occurrences "filter(" precision.
Proof. count. lia. Qed.

Lemma range_in_filter_stage a fv :
  occurrences "range(" (a +:+ piped (filter_clause fv)) =
  occurrences "range(" a + occurrences "range(" fv.1 + occurrences "range(" fv.2.
Proof. count. lia. Qed.

Lemma filter_in_filter_stage a fv :
  occurrences "filter(" (a +:+ piped (filter_clause fv)) =
  occurrences "filter(" a + 1 +
  occurrences "filter(" fv.1 + occurrences "filter(" fv.2.
Proof. count. lia. Qed.

Lemma range_in_filters a fields precision :
  occurrences "range(" (a +:+ filters fields +:+ closing precision) =
  occurrences "range(" a + occurrences_in_items "range(" fields +
  occurrences "range(" precision.
Proof.
  revert a. induction fields as [|[f v] fields IH]; intros a.
  - change (filters []) with "". change ("" +:+ closing precision) with (closing precision).
    rewrite range_in_closing. cbn. lia.
  - rewrite filters_cons, append_assoc, <- (append_assoc a), IH,
      range_in_filter_stage. cbn. lia.
Qed.

Lemma filter_in_filters a fields precision :
  occurrences "filter(" (a +:+ filters fields +:+ closing precision) =
  occurrences "filter(" a + List.length fields +
  occurrences_in_items "filter(" fields + occurrences "filter(" precision.
Proof.
  revert a. induction fields as [|[f v] fields IH]; intros a.
  - change (filters []) with "". change ("" +:+ closing precision) with (closing precision).
    rewrite filter_in_closing. cbn. lia.
  - rewrite filters_cons, append_assoc, <- (append_assoc a), IH,
      filter_in_filter_stage. cbn. lia.
Qed.

Lemma chars_in_isoformat d : chars_in iso_alphabet (isoformat d) = true.
Proof.
  unfold isoformat, format_local, format_offset.
  destruct (dt_utcoffset d) as [o|];
    repeat match goal with
    | |- context [if ?b then _ else _] => destruct b
    end;
    rewrite ?chars_in_app, ?chars_in_zpad; reflexivity.
Qed.

Lemma range_in_isoformat d : occurrences "range(" (isoformat d) = 0.
Proof.
  apply occurrences_absent.
  apply (chars_in_absent iso_alphabet); [apply chars_in_isoformat | reflexivity].
Qed.

Lemma filter_in_isoformat d : occurrences "filter(" (isoformat d) = 0.
Proof.
  apply occurrences_absent.
  apply (chars_in_absent iso_alphabet); [apply chars_in_isoformat | reflexivity].
Qed.

Lemma range_in_range_both a s e :
  occurrences "range(" (a +:+ piped (range_both s e)) =
  occurrences "range(" a + 1 + occurrences "range(" s + occurrences "range(" e.
Proof. count. lia. Qed.

Lemma range_in_range_start a s :
  occurrences "range(" (a +:+ piped (range_start s)) =
  occurrences "range(" a + 1 + occurrences "range(" s.
Proof. count. lia. Qed.

Lemma range_in_range_stop a e :
  occurrences "range(" (a +:+ piped (range_stop e)) =
  occurrences "range(" a + 1 + occurrences "range(" e.
Proof. count. lia. Qed.

Lemma filter_in_range_both a s e :
  occurrences "filter(" (a +:+ piped (range_both s e)) =
  occurrences "filter(" a + occurrences "filter(" s + occurrences "filter(" e.
Proof. count. lia. Qed.

Lemma filter_in_range_start a s :
  occurrences "filter(" (a +:+ piped (range_start s)) =
  occurrences "filter(" a + occurrences "filter(" s.
Proof. count. lia. Qed.

Lemma filter_in_range_stop a e :
  occurrences "filter(" (a +:+ piped (range_stop e)) =
  occurrences "filter(" a + occurrences "filter(" e.
Proof. count. lia. Qed.

Lemma time_range_ok st en r piece :
  time_range st en "" = (Ok r, piece) -> range_piece st en piece.
Proof.
  destruct st as [[s|s]|], en as [[e|e]|]; cbn; run;
    repeat match goal with
    | |- context [tzinfo ?d] => destruct (tzinfo d)
    end; cbn; intros H; inversion H; subst; clear H;
    match goal with
    | |- range_piece (Some (PyDatetime ?s)) (Some (PyDatetime ?e)) ?p =>
        replace p with (piped (range_both (isoformat s) (isoformat e)))
          by (layout; reflexivity)
    | |- range_piece (Some (PyDatetime ?s)) None ?p =>
        replace p with (piped (range_start (isoformat s)))
          by (layout; reflexivity)
    | |- range_piece None (Some (PyDatetime ?e)) ?p =>
        replace p with (piped (range_stop (isoformat e)))
          by (layout; reflexivity)
    | _ => idtac
    end; constructor.
Qed.

(** [build_query] returns the assembled text, or raises what the time-range
    block raised. *)
Lemma build_query_run project fields st en precision :
  build_query project fields st en precision =
    match time_range st en "" with
    | (Ok _, piece) =>
        Ok (opening project +:+ piece +:+ filters fields +:+ closing precision)
    | (Raise e, _) => Raise e
    end.
Proof.
  unfold build_query. rewrite build_query_body_run.
  now destruct (time_range st en "") as [[[]|e] piece].
Qed.

Lemma build_query_ok project fields st en precision q :
  build_query project fields st en precision = Ok q ->
  exists piece, range_piece st en piece /\
    q = opening project +:+ piece +:+ filters fields +:+ closing precision.
Proof.
  rewrite build_query_run.
  destruct (time_range st en "") as [[[]|e] piece] eqn:E; [|discriminate].
  intros [= <-]. exists piece. split; [|reflexivity].
  now apply time_range_ok in E.
Qed.

Lemma aware_tzinfo d : aware d -> exists z, tzinfo d = Some z.
Proof.
  unfold aware, dt_utcoffset. destruct (tzinfo d) as [z|]; [eauto|].
  intros [o Ho]. discriminate.
Qed.


Lemma build_query_datetimes project fields st en precision piece :
  range_piece st en piece ->
  (forall d, st = Some (PyDatetime d) -> aware d) ->
  (forall d, en = Some (PyDatetime d) -> aware d) ->
  build_query project fields st en precision =
    Ok (opening project +:+ piece +:+ filters fields +:+ closing precision).
Proof.
  intros Hp Hs He. rewrite build_query_run.
  destruct Hp as [s e|s|e|];
    try (destruct (aware_tzinfo s (Hs s eq_refl)) as [zs Hzs]);
    try (destruct (aware_tzinfo e (He e eq_refl)) as [ze Hze]);
    unfold time_range, test_datetime, call_isoformat; rewrite ?Hzs, ?Hze;
    run; f_equal; layout; unfold nl, dq; cbv [String.append spaces];
    reflexivity.
Qed.

Lemma range_count project fields st en precision piece :
  range_piece st en piece ->
  occurrences "range("
    (opening project +:+ piece +:+ filters fields +:+ closing precision) =
  match st, en with None, None => 0 | _, _ => 1 end +
  carried "range(" project fields precision.
Proof.
  intros Hp. unfold carried.
  rewrite <- append_assoc, range_in_filters.
  destruct Hp;
    rewrite ?range_in_range_both, ?range_in_range_start, ?range_in_range_stop,
      ?append_nil_r, ?range_in_isoformat, range_in_opening; lia.
Qed.

Lemma filter_count project fields st en precision piece :
  range_piece st en piece ->
  occurrences "filter("
    (opening project +:+ piece +:+ filters fields +:+ closing precision) =
  List.length fields + carried "filter(" project fields precision.
Proof.
  intros Hp. unfold carried.
  rewrite <- append_assoc, filter_in_filters.
  destruct Hp;
    rewrite ?filter_in_range_both, ?filter_in_range_start, ?filter_in_range_stop,
      ?append_nil_r, ?filter_in_isoformat, filter_in_opening; lia.
Qed.

(** *** Strings of the caller that carry a stage *)

Lemma starts_with_split pat s :
  starts_with pat s = true -> exists post, s = pat +:+ post.
Proof.
  revert s. induction pat as [|p pat IH]; intros s H; [now exists s|].
  destruct s as [|c s]; [discriminate|].
  cbn [starts_with] in H. apply andb_true_iff in H as [Hc Hs].
  apply Ascii.eqb_eq in Hc as ->. destruct (IH s Hs) as [post ->].
  now exists post.
Qed.

Lemma occurrences_substring pat s :
  0 < occurrences pat s -> substring_of pat s.
Proof.
  induction s as [|c s IH]; cbn [occurrences].
  - destruct (starts_with pat "") eqn:E; [|lia]. intros _.
    destruct (starts_with_split _ _ E) as [post ->]. now exists "", post.
  - destruct (starts_with pat (String c s)) eqn:E.
    + intros _. destruct (starts_with_split _ _ E) as [post ->].
      now exists "", post.
    + intros H. destruct IH as (pre & post & ->); [lia|].
      now exists (String c pre), post.
Qed.




(** C2, as the specification states it, fails where a string of the caller
    carries a filter stage: a mapping of one entry whose value closes its
    stage and opens another gives two filter stages, and an empty mapping
    with such a project gives one. *)
Lemma build_query_filter_counterexample :
  let value :=
    "x" +:+ dq +:+ ")" +:+ nl +:+ "|> filter(fn: (r) => r[" +:+ dq +:+ "b" +:+ dq +:+
    "] == " +:+ dq +:+ "y" in
  let project :=
    "p" +:+ dq +:+ ")" +:+ nl +:+ "|> filter(fn: (r) => r[" +:+ dq +:+ "c" +:+ dq +:+
    "] == " +:+ dq +:+ "z" in
  (exists q,
     build_query "p" [("a", value)] None None "5m" = Ok q /\
     occurrences "filter(" q = 2 /\
     substring_of ("|> " +:+ filter_clause ("a", "x")) q /\
     substring_of ("|> " +:+ filter_clause ("b", "y")) q) /\
  (exists q,
     build_query project [] None None "5m" = Ok q /\
     occurrences "filter(" q = 1 /\
     substring_of ("|> " +:+ filter_clause ("c", "z")) q).
Proof.
  cbv zeta. split.
  - eexists. split; [reflexivity|]. split; [reflexivity|].
    split; apply occurrences_substring; vm_compute; lia.
  - eexists. split; [reflexivity|]. split; [reflexivity|].
    apply occurrences_substring. vm_compute. lia.
Qed.

(** C2, amended.  A mapping of N entries gives N filter stages, one per
    entry and in the order of the mapping, each
    [filter(fn: (r) => r["f"] == "v")]: the query is the query of the same
    call with an empty mapping, with the stages inserted before the
    aggregation.  It holds [filter(] N times beyond the occurrences the
    project, the field names and values and the precision themselves bring
    along: exactly N times, and with an empty mapping not at all, when none
    of them contains it. *)
Theorem build_query_filter_clauses project fields st en precision q :
  build_query project fields st en precision = Ok q ->
  exists head,
    build_query project [] st en precision = Ok (head +:+ closing precision) /\
    q = head +:+ join (map (fun fv => piped (filter_clause fv)) fields) +:+
        closing precision /\
    occurrences "filter(" q =
      List.length fields + carried "filter(" project fields precision /\
    occurrences "filter(" (head +:+ closing precision) =
      carried "filter(" project [] precision.
Proof.
  intros H. rewrite build_query_run in H.
  destruct (time_range st en "") as [[[]|e] piece] eqn:E; [|discriminate].
  injection H as <-. pose proof (time_range_ok _ _ _ _ E) as Hp.
  exists (opening project +:+ piece). repeat split.
  - rewrite build_query_run, E. f_equal.
    rewrite (append_assoc (opening project) piece). reflexivity.
  - rewrite (append_assoc (opening project) piece). reflexivity.
  - now apply (filter_count project fields st en).
  - rewrite (append_assoc (opening project) piece).
    apply (filter_count project [] st en precision piece Hp).
Qed.

Lemma build_query_filter_clauses_witness :
  build_query "weather" [("sensor", "t1"); ("room", "a")] None None "5m"
  = Ok (opening "weather" +:+ piped (filter_clause ("sensor", "t1")) +:+
        piped (filter_clause ("room", "a")) +:+ closing "5m") /\
  occurrences "filter("
    (opening "weather" +:+ piped (filter_clause ("sensor", "t1")) +:+
     piped (filter_clause ("room", "a")) +:+ closing "5m") = 2.
Proof.
  assert (H : build_query "weather" [("sensor", "t1"); ("room", "a")] None None "5m"
    = Ok (opening "weather" +:+ piped (filter_clause ("sensor", "t1")) +:+
        piped (filter_clause ("room", "a")) +:+ closing "5m")) by reflexivity.
  split; [exact H|].
  destruct (build_query_filter_clauses _ _ _ _ _ _ H) as (head & _ & _ & Hn & _).
  rewrite Hn. reflexivity.
Defined.

(** The query of a call with a project and nothing else. *)
Lemma build_query_kw_project_only project :
  build_query_kw {| kw_project := Some project; kw_fields := None;
                    kw_start_time := None; kw_end_time := None;
                    kw_precision := None; kw_other := [] |}
  = Ok (opening project +:+ closing "5m").
Proof.
  unfold build_query_kw. cbn [kw_other kw_project kw_fields kw_start_time
    kw_end_time kw_precision default].
  rewrite (build_query_datetimes _ _ None None _ "" piece_none) by discriminate.
  reflexivity.
Qed.

(** *** The text between its layout blanks *)

Lemma starts_with_app a b : starts_with a (a +:+ b) = true.
Proof.
  induction a as [|c a IH]; [reflexivity|].
  change (String c a +:+ b) with (String c (a +:+ b)).
  cbn [starts_with]. now rewrite Ascii.eqb_refl, IH.
Qed.

Lemma ends_with_app a suf : ends_with suf (a +:+ suf) = true.
Proof.
  induction a as [|c a IH].
  - change ("" +:+ suf) with suf. destruct suf; cbn [ends_with];
      now rewrite String.eqb_refl.
  - change (String c a +:+ suf) with (String c (a +:+ suf)).
    cbn [ends_with]. rewrite IH. apply orb_true_r.
Qed.

Lemma rstrip_app a b : rstrip b <> "" -> rstrip (a +:+ b) = a +:+ rstrip b.
Proof.
  intros Hb. induction a as [|c a IH]; [reflexivity|].
  change (String c a +:+ b) with (String c (a +:+ b)).
  cbn [rstrip]. rewrite IH.
  change (String c a +:+ rstrip b) with (String c (a +:+ rstrip b)).
  destruct (a +:+ rstrip b) as [|x r] eqn:E; [|reflexivity].
  destruct a; [|discriminate]. now destruct Hb.
Qed.

(** What [strip] leaves of a text laid out as the queries are. *)
Lemma strip_layout body :
  strip (nl +:+ spaces 12 +:+ "from(" +:+ body +:+ ")" +:+ nl +:+ spaces 8)
  = "from(" +:+ body +:+ ")".
Proof.
  unfold strip.
  change (lstrip (nl +:+ spaces 12 +:+ "from(" +:+ body +:+ ")" +:+ nl +:+ spaces 8))
    with ("from(" +:+ body +:+ ")" +:+ nl +:+ spaces 8).
  rewrite <- (append_assoc "from(" body), rstrip_app; [|discriminate].
  now rewrite append_assoc.
Qed.

(** C3, as the specification states it, fails where the project name
    carries a range stage: the call with a project and nothing else, no
    bound and no filter, then gives a query with a range stage. *)
Lemma build_query_project_only_counterexample :
  let project :=
    "x" +:+ dq +:+ ")" +:+ nl +:+ "|> range(start: -1h)" +:+ nl +:+
    "|> yield(name: " +:+ dq +:+ "early" in
  build_query_kw {| kw_project := Some project; kw_fields := None;
                    kw_start_time := None; kw_end_time := None;
                    kw_precision := None; kw_other := [] |}
  = Ok (opening project +:+ closing "5m") /\
  substring_of "|> range(start: -1h)" (opening project +:+ closing "5m") /\
  occurrences "range(" (opening project +:+ closing "5m") = 1.
Proof.
  cbv zeta. split; [reflexivity|]. split; [|reflexivity].
  apply occurrences_substring. vm_compute. lia.
Qed.

(** C3, amended.  Every query [build_query] returns begins with
    [from(bucket: "project")] and ends with the stage
    [aggregateWindow(every: precision, fn: mean, createEmpty: true)]
    followed by the stage [yield(name: "mean")], read between the blanks
    the layout puts around the text and with the pipe-forward operator
    before each stage.  The precision defaults to 5m: a call with a project
    and nothing else gives the from stage and the two closing stages and
    nothing more, and no [range(] but those the project name itself
    contains. *)
Theorem build_query_frame project fields st en precision q :
  build_query project fields st en precision = Ok q ->
  let suffix :=
    "|> " +:+ aggregate_clause precision +:+ nl +:+ spaces 12 +:+
    "|> " +:+ yield_clause in
  let default_call :=
    {| kw_project := Some project; kw_fields := None; kw_start_time := None;
       kw_end_time := None; kw_precision := None; kw_other := [] |} in
  let default_suffix :=
    "|> " +:+ aggregate_clause "5m" +:+ nl +:+ spaces 12 +:+
    "|> " +:+ yield_clause in
  starts_with (from_clause project) (strip q) = true /\
  ends_with suffix (strip q) = true /\
  (exists middle,
     q = nl +:+ spaces 12 +:+ from_clause project +:+ middle +:+ suffix +:+
         nl +:+ spaces 8) /\
  default_precision = "5m" /\
  (exists q0,
     build_query_kw default_call = Ok q0 /\
     strip q0 =
       from_clause project +:+ nl +:+ spaces 8 +:+ nl +:+ spaces 12 +:+
       default_suffix /\
     occurrences "range(" q0 = occurrences "range(" project).
Proof.
  intros H. cbv zeta.
  destruct (build_query_ok _ _ _ _ _ _ H) as (piece & Hp & ->).
  assert (Hstrip : forall middle prec,
    strip (nl +:+ spaces 12 +:+ from_clause project +:+ middle +:+
           "|> " +:+ aggregate_clause prec +:+ nl +:+ spaces 12 +:+
           "|> " +:+ yield_clause +:+ nl +:+ spaces 8)
    = from_clause project +:+ middle +:+
      "|> " +:+ aggregate_clause prec +:+ nl +:+ spaces 12 +:+
      "|> " +:+ yield_clause).
  { intros middle prec.
    pose proof (strip_layout
      ("bucket: " +:+ dq +:+ project +:+ dq +:+ ")" +:+ middle +:+
       "|> " +:+ aggregate_clause prec +:+ nl +:+ spaces 12 +:+
       "|> yield(name: " +:+ dq +:+ "mean" +:+ dq)) as Hs.
    unfold from_clause, yield_clause. rewrite !append_assoc in *.
    exact Hs. }
  assert (Hq : forall prec middle,
    opening project +:+ middle +:+ closing prec =
    nl +:+ spaces 12 +:+ from_clause project +:+
    (nl +:+ spaces 8 +:+ middle +:+ nl +:+ spaces 12) +:+
    "|> " +:+ aggregate_clause prec +:+ nl +:+ spaces 12 +:+
    "|> " +:+ yield_clause +:+ nl +:+ spaces 8).
  { intros prec middle. unfold opening, closing. now rewrite !append_assoc. }
  rewrite <- (append_assoc piece (filters fields) (closing precision)).
  rewrite (Hq precision (piece +:+ filters fields)), Hstrip.
  split; [apply starts_with_app|]. split.
  - rewrite <- (append_assoc (from_clause project)). apply ends_with_app.
  - split.
    + exists (nl +:+ spaces 8 +:+ (piece +:+ filters fields) +:+ nl +:+ spaces 12).
      rewrite !append_assoc. reflexivity.
    + split; [reflexivity|].
      exists (opening project +:+ closing "5m").
      split; [apply build_query_kw_project_only|]. split.
      * change (opening project +:+ closing "5m")
          with (opening project +:+ "" +:+ closing "5m").
        rewrite (Hq "5m" ""), Hstrip.
        change ("" +:+ nl +:+ spaces 12) with (nl +:+ spaces 12).
        now rewrite !append_assoc.
      * pose proof (range_count project [] None None "5m" "" piece_none) as Hc.
        change (opening project +:+ "" +:+ filters [] +:+ closing "5m")
          with (opening project +:+ closing "5m") in Hc.
        rewrite Hc. unfold carried. cbn. lia.
Qed.

Lemma build_query_frame_witness :
  build_query "demo" [("sensor", "t1")] None (Some (PyDatetime sample_end)) "1h"
  = Ok (opening "demo" +:+ piped (range_stop (isoformat sample_end)) +:+
        piped (filter_clause ("sensor", "t1")) +:+ closing "1h") /\
  starts_with (from_clause "demo")
    (strip (opening "demo" +:+ piped (range_stop (isoformat sample_end)) +:+
            piped (filter_clause ("sensor", "t1")) +:+ closing "1h")) = true.
Proof.
  assert (H : build_query "demo" [("sensor", "t1")] None
                (Some (PyDatetime sample_end)) "1h"
    = Ok (opening "demo" +:+ piped (range_stop (isoformat sample_end)) +:+
          piped (filter_clause ("sensor", "t1")) +:+ closing "1h"))
    by reflexivity.
  split; [exact H|].
  exact (proj1 (build_query_frame _ _ _ _ _ _ H)).
Defined.

(** *** Interpolation *)

Lemma substring_of_within a b s t :
  substring_of s t -> substring_of s (a +:+ t +:+ b).
Proof.
  intros (pre & post & ->). exists (a +:+ pre), (post +:+ b).
  now rewrite !append_assoc.
Qed.

Lemma substring_of_trans s t u :
  substring_of s t -> substring_of t u -> substring_of s u.
Proof. intros Hst (pre & post & ->). now apply substring_of_within. Qed.

Lemma filters_split l1 fv l2 :
  filters (l1 ++ fv :: l2) =
  filters l1 +:+ piped (filter_clause fv) +:+ filters l2.
Proof. unfold filters. now rewrite map_app, join_app. Qed.

Lemma field_in_query project piece fields precision f v :
  In (f, v) fields ->
  substring_of (filter_clause (f, v))
    (opening project +:+ piece +:+ filters fields +:+ closing precision).
Proof.
  intros Hin. apply in_split in Hin as (l1 & l2 & ->).
  rewrite filters_split. unfold piped.
  exists (opening project +:+ piece +:+ filters l1 +:+ nl +:+ spaces 16 +:+ "|> "),
         (nl +:+ spaces 12 +:+ filters l2 +:+ closing precision).
  now rewrite !append_assoc.
Qed.

(** C10.  [build_query] neither escapes nor checks the project, the field
    names, the field values or the precision: each is a piece of the query
    as it was passed, between the quotes or blanks of its stage, and whether
    a query is returned does not depend on them. *)
Theorem build_query_interpolates_verbatim project fields st en precision q :
  build_query project fields st en precision = Ok q ->
  substring_of project q /\
  substring_of ("from(bucket: " +:+ dq +:+ project +:+ dq +:+ ")") q /\
  substring_of precision q /\
  substring_of ("aggregateWindow(every: " +:+ precision +:+ ", fn: mean") q /\
  (forall f v, In (f, v) fields ->
     substring_of f q /\ substring_of v q /\
     substring_of ("r[" +:+ dq +:+ f +:+ dq +:+ "] == " +:+ dq +:+ v +:+ dq) q) /\
  (forall project' fields' precision',
     exists q', build_query project' fields' st en precision' = Ok q').
Proof.
  intros H. pose proof H as H0. rewrite build_query_run in H0.
  destruct (build_query_ok _ _ _ _ _ _ H) as (piece & Hp & ->).
  assert (Hfrom : substring_of ("from(bucket: " +:+ dq +:+ project +:+ dq +:+ ")")
            (opening project +:+ piece +:+ filters fields +:+ closing precision)).
  { exists (nl +:+ spaces 12),
      (nl +:+ spaces 8 +:+ piece +:+ filters fields +:+ closing precision).
    unfold opening, from_clause. now rewrite !append_assoc. }
  assert (Hagg : substring_of ("aggregateWindow(every: " +:+ precision +:+ ", fn: mean")
            (opening project +:+ piece +:+ filters fields +:+ closing precision)).
  { exists (opening project +:+ piece +:+ filters fields +:+ nl +:+ spaces 12 +:+ "|> "),
      (", createEmpty: true)" +:+ nl +:+ spaces 12 +:+ "|> " +:+ yield_clause +:+
       nl +:+ spaces 8).
    unfold closing, aggregate_clause. now rewrite !append_assoc. }
  repeat split; try assumption.
  - eapply substring_of_trans; [|exact Hfrom].
    exists ("from(bucket: " +:+ dq), (dq +:+ ")"). now rewrite !append_assoc.
  - eapply substring_of_trans; [|exact Hagg].
    exists "aggregateWindow(every: ", ", fn: mean". reflexivity.
  - eapply substring_of_trans; [|apply field_in_query; eassumption].
    exists ("filter(fn: (r) => r[" +:+ dq), (dq +:+ "] == " +:+ dq +:+ v +:+ dq +:+ ")").
    unfold filter_clause. now rewrite !append_assoc.
  - eapply substring_of_trans; [|apply field_in_query; eassumption].
    exists ("filter(fn: (r) => r[" +:+ dq +:+ f +:+ dq +:+ "] == " +:+ dq), (dq +:+ ")").
    unfold filter_clause. now rewrite !append_assoc.
  - eapply substring_of_trans; [|apply field_in_query; eassumption].
    exists "filter(fn: (r) => ", ")".
    unfold filter_clause. now rewrite !append_assoc.
  - intros project' fields' precision'. rewrite build_query_run.
    destruct (time_range st en "") as [[[]|e] piece']; [eauto|discriminate].
Qed.

Lemma build_query_interpolates_verbatim_witness :
  let project := "x" +:+ dq +:+ ")" +:+ nl +:+ "|> range(start: -1h" in
  build_query project [("a" +:+ dq, "b")] None None "5m"
  = Ok (opening project +:+ piped (filter_clause ("a" +:+ dq, "b")) +:+
        closing "5m") /\
  substring_of project
    (opening project +:+ piped (filter_clause ("a" +:+ dq, "b")) +:+ closing "5m").
Proof.
  cbv zeta.
  assert (H : build_query ("x" +:+ dq +:+ ")" +:+ nl +:+ "|> range(start: -1h")
                [("a" +:+ dq, "b")] None None "5m"
    = Ok (opening ("x" +:+ dq +:+ ")" +:+ nl +:+ "|> range(start: -1h") +:+
          piped (filter_clause ("a" +:+ dq, "b")) +:+ closing "5m"))
    by reflexivity.
  split; [exact H|].
  exact (proj1 (build_query_interpolates_verbatim _ _ _ _ _ _ H)).
Defined.

(** *** Validation *)

Lemma test_datetime_turned_down {S} x (s : S) :
  turned_down x ->
  exists e, InvalidTimestampError e /\ test_datetime x s = (Raise e, s).
Proof.
  destruct x as [d|str]; cbn.
  - intros ->. eexists. split; [|reflexivity]. exists (isoformat d). now right.
  - intros _. eexists. split; [|reflexivity]. exists str. now left.
Qed.

Lemma test_datetime_cases {S} x (s : S) :
  test_datetime x s = (Ok tt, s) \/
  exists e, InvalidTimestampError e /\ test_datetime x s = (Raise e, s).
Proof.
  destruct x as [d|str].
  - destruct (tzinfo d) as [z|] eqn:E.
    + left. now apply (test_datetime_ok d z).
    + right. now apply test_datetime_turned_down.
  - right. now apply test_datetime_turned_down.
Qed.

(** A bound that is turned down makes the time-range block raise, with
    nothing appended. *)
Lemma time_range_turned_down st en x (q : string) :
  (st = Some x \/ en = Some x) -> turned_down x ->
  exists e, InvalidTimestampError e /\ time_range st en q = (Raise e, q).
Proof.
  intros Hx Hbad.
  destruct (test_datetime_turned_down x q Hbad) as (e & He & Hr).
  destruct Hx as [-> | ->].
  - exists e. split; [exact He|].
    destruct en; unfold time_range; run; now rewrite Hr.
  - destruct st as [y|].
    + destruct (test_datetime_cases y q) as [Hy | (e' & He' & Hy)].
      * exists e. split; [exact He|]. unfold time_range; run. now rewrite Hy, Hr.
      * exists e'. split; [exact He'|]. unfold time_range; run. now rewrite Hy.
    + exists e. split; [exact He|]. unfold time_range; run. now rewrite Hr.
Qed.

End Builder.

(** ** The facade *)

Section FacadeFacts.

Context {store : Type}.
Implicit Types (self : TimeseriesClient store) (w : world store).

Lemma call_run {A} ev (c : stx store A) w :
  call ev c w =
    ((c (db w)).1,
     {| heap := heap w; db := (c (db w)).2; trace := trace w ++ [ev] |}).
Proof.
  unfold call, log, on_store. run. cbn. now destruct (c (db w)) as [[a|e] d].
Qed.

(** The read operations build the query first: a query that cannot be
    built is not sent, and the world stays as it was. *)
Lemma get_points_run self kw w :
  get_points self kw w =
    match build_query_kw kw with
    | Ok query =>
        let 'QueryApi c := _query_api self in
        call (EvQuery query) (query_of c query) w
    | Raise e => (Raise e, w)
    end.
Proof.
  unfold get_points. cbn [health_attr truthy negb]. unfold lift. run.
  destruct (build_query_kw kw); [|reflexivity].
  now destruct (_query_api self).
Qed.

Lemma get_dataframe_run self kw w :
  get_dataframe self kw w =
    match build_query_kw kw with
    | Ok query =>
        let 'QueryApi c := _query_api self in
        call (EvQueryDataFrame query) (query_data_frame_of c query) w
    | Raise e => (Raise e, w)
    end.
Proof.
  unfold get_dataframe. cbn [health_attr truthy negb]. unfold lift. run.
  destruct (build_query_kw kw); [|reflexivity].
  now destruct (_query_api self).
Qed.

(** C4, as the specification states it, fails on a naive datetime that has
    a [tzinfo]: the object reports no offset, the check looks at the
    attribute only, and the bound is written into the query without
    offset. *)
Lemma naive_with_tzinfo_counterexample :
  naive sample_no_offset /\
  isoformat sample_no_offset = "2021-03-01T00:00:00" /\
  build_query "weather" [] (Some (PyDatetime sample_no_offset)) None "5m"
  = Ok (opening "weather" +:+ piped (range_start "2021-03-01T00:00:00") +:+
        closing "5m").
Proof. repeat split; reflexivity. Qed.

(** C4, amended.  A start or end bound that is not a datetime, or that is a
    datetime whose [tzinfo] is [None], makes [build_query] raise the
    timestamp error; at that point the text holds the from stage and
    nothing more, and [get_points] and [get_dataframe] raise the same error
    without sending anything.  Conversely a datetime that has a [tzinfo]
    passes the check, and every aware datetime has one. *)
Theorem invalid_timestamp_rejected self w project fields precision st en :
  (forall x, (st = Some x \/ en = Some x) -> turned_down x ->
     exists e, InvalidTimestampError e /\
       build_query project fields st en precision = Raise e /\
       assembled project fields st en precision = opening project /\
       forall kw,
         kw_other kw = [] -> kw_project kw = Some project ->
         kw_start_time kw = st -> kw_end_time kw = en ->
         get_points self kw w = (Raise e, w) /\
         get_dataframe self kw w = (Raise e, w)) /\
  (forall d (q : string),
     is_Some (tzinfo d) -> test_datetime (PyDatetime d) q = (Ok tt, q)) /\
  (forall d, aware d -> is_Some (tzinfo d)).
Proof.
  split; [|split].
  - intros x Hx Hbad.
    destruct (time_range_turned_down st en x "" Hx Hbad) as (e & He & Hr).
    exists e. split; [exact He|]. split; [|split].
    + now rewrite build_query_run, Hr.
    + unfold assembled. now rewrite build_query_body_run, Hr.
    + intros kw Hother Hproject <- <-.
      rewrite get_points_run, get_dataframe_run. unfold build_query_kw.
      now rewrite Hother, Hproject, build_query_run, Hr.
  - intros d q [z Hz]. now apply (test_datetime_ok d z).
  - intros d Hd. destruct (aware_tzinfo d Hd) as [z Hz]. now exists z.
Qed.

End FacadeFacts.

Section WriteFacts.

Context {store : Type}.
Implicit Types (self : TimeseriesClient store) (w : world store).

Lemma write_frame_run self c bucket record measurement_name l w :
  _write_api self = WriteApi c ->
  write_frame self bucket record measurement_name l w =
    let names := default [] (heap w !! l) in
    call (EvWriteFrame bucket record measurement_name l names)
         (write_frame_of c bucket record measurement_name names) w.
Proof. intros Hc. unfold write_frame, list_read. run. now rewrite Hc. Qed.

(** The loop appends every tag name to the list object and sets every tag
    column on the local frame; it cannot raise. *)
Lemma tag_loop_run items l dataframe tags_dataframe w names :
  heap w !! l = Some names ->
  len tags_dataframe = len dataframe ->
  tag_loop items l dataframe tags_dataframe w =
    (Ok {| index := index tags_dataframe;
           columns :=
             fold_left (fun cols kv =>
                          set_column kv.1 (replicate (len dataframe) kv.2) cols)
                       items (columns tags_dataframe) |},
     {| heap := <[l := names ++ map fst items]> (heap w); db := db w;
        trace := trace w |}).
Proof.
  revert tags_dataframe w names.
  induction items as [|[k v] items IH]; intros tdf w names Hl Hlen.
  - cbn. rewrite app_nil_r, insert_id by exact Hl.
    now destruct tdf, w.
  - cbn [tag_loop]. unfold list_append, lift, setitem. run.
    rewrite length_replicate, Hlen, bool_decide_eq_true_2 by reflexivity.
    erewrite IH; [|cbn [heap]; rewrite lookup_alter_eq, Hl; reflexivity|exact Hlen].
    cbn [heap db trace index columns fold_left map fst snd].
    rewrite insert_alter_eq, <- app_assoc. reflexivity.
Qed.

Lemma set_column_fresh name values cols :
  ~ In name (map fst cols) ->
  set_column name values cols = cols ++ [(name, values)].
Proof.
  induction cols as [|[n vs] cols IH]; intros Hfresh; [reflexivity|].
  cbn in *. rewrite bool_decide_eq_false_2 by tauto. rewrite IH by tauto.
  reflexivity.
Qed.

(** With distinct tag names, as the keys of a dict are, the tag columns
    are added on the right in the order of the mapping. *)
Lemma tag_columns_added n items cols :
  NoDup (map fst items) ->
  (forall k, In k (map fst items) -> ~ In k (map fst cols)) ->
  fold_left (fun cols kv => set_column kv.1 (replicate n kv.2) cols) items cols
  = cols ++ map (tag_column n) items.
Proof.
  revert cols. induction items as [|[k v] items IH]; intros cols Hnd Hfresh.
  - cbn. now rewrite app_nil_r.
  - cbn [fold_left map fst snd]. apply NoDup_cons in Hnd as [Hk Hnd].
    rewrite set_column_fresh by (apply Hfresh; now left).
    rewrite IH; [now rewrite <- app_assoc|exact Hnd|].
    intros k' Hk'. rewrite map_app, in_app_iff. cbn.
    intros [Hin|[<-|[]]].
    + apply (Hfresh k'); [now right|exact Hin].
    + apply Hk. now apply list_elem_of_In.
Qed.

End WriteFacts.

(** On the bucket store [create_bucket] always returns normally; the bucket
    is added when it is new. *)
Lemma create_bucket_on_store bucket (w : world (gset string)) :
  create_bucket store_facade bucket w =
    (Ok tt,
     {| heap := heap w;
        db := if bool_decide (bucket ∈ db w) then db w else {[bucket]} ∪ db w;
        trace := trace w ++ [EvCreateBucket bucket] |}).
Proof.
  unfold create_bucket, store_facade. cbn [_bucket_api].
  rewrite call_run. cbn [bucket_store_client create_bucket_of].
  unfold store_create_bucket.
  destruct (bool_decide (bucket ∈ db w)); cbn [fst snd negb];
    rewrite ?bool_decide_eq_true_2 by reflexivity; reflexivity.
Qed.

(** The second creation of a bucket meets the conflict and still returns
    normally. *)
Lemma create_twice bucket (buckets : gset string) :
  let w0 : world (gset string) := {| heap := ∅; db := buckets; trace := [] |} in
  let first := create_bucket store_facade bucket w0 in
  let second := create_bucket store_facade bucket first.2 in
  first.1 = Ok tt /\ second.1 = Ok tt /\ bucket ∈ db second.2 /\
  trace second.2 = [EvCreateBucket bucket; EvCreateBucket bucket].
Proof.
  cbv zeta. rewrite !create_bucket_on_store. cbn [fst snd db trace heap].
  repeat split. repeat case_bool_decide; set_solver.
Qed.

Section FacadeProperties.

Context {store : Type}.
Implicit Types (self : TimeseriesClient store) (w : world store).

(** C6.  Without a client, [__init__] needs host, port and token: when one
    is missing it raises the configuration error and leaves the world as it
    was, so that no client and no delegate has been created.  With the
    three, or with a client, it succeeds, creates the write, query and
    bucket delegates of the client, and nothing else. *)
Theorem init_requires_connection_fields connect_to host port organization token
    client w :
  (client = None -> host = None \/ port = None \/ token = None ->
     exists e, ConfigurationError e /\
       __init__ connect_to host port organization token client w = (Raise e, w)) /\
  (forall h p t, client = None ->
     host = Some h -> port = Some p -> token = Some t ->
     let url := "https://" +:+ h +:+ ":" +:+ str_int p in
     let c := connect_to url t organization in
     __init__ connect_to host port organization token client w =
       (Ok {| _client := c; _write_api := WriteApi c; _query_api := QueryApi c;
              _bucket_api := BucketsApi c |},
        {| heap := heap w; db := db w;
           trace := trace w ++ [EvNewClient url t organization; EvWriteApi;
                                EvQueryApi; EvBucketsApi] |})) /\
  (forall c, client = Some c ->
     __init__ connect_to host port organization token client w =
       (Ok {| _client := c; _write_api := WriteApi c; _query_api := QueryApi c;
              _bucket_api := BucketsApi c |},
        {| heap := heap w; db := db w;
           trace := trace w ++ [EvWriteApi; EvQueryApi; EvBucketsApi] |})).
Proof.
  split; [|split].
  - intros -> Hmissing. unfold __init__, ConfigurationError. run.
    destruct host as [h|]; [|eauto].
    destruct port as [p|]; [|eauto].
    destruct token as [t|]; [|eauto].
    destruct Hmissing as [|[|]]; discriminate.
  - intros h p t -> -> -> ->. unfold __init__, log. run. cbn.
    now rewrite <- !app_assoc.
  - intros c ->. unfold __init__, log. run. cbn. now rewrite <- !app_assoc.
Qed.

(** C7.  [create_bucket] swallows the conflict and nothing else: an
    [ApiException] with status 422 from the delegate becomes a normal
    return, any other exception comes out as it was raised, and a
    successful creation returns normally; the world is in each case as the
    delegate left it.  On a store that refuses an existing bucket with 422,
    creating the same bucket twice returns normally both times. *)
Theorem create_bucket_swallows_conflict self c bucket w :
  _bucket_api self = BucketsApi c ->
  let attempt := call (EvCreateBucket bucket) (create_bucket_of c bucket) w in
  (attempt.1 = Raise (ApiException (Some 422%Z)) ->
     create_bucket self bucket w = (Ok tt, attempt.2)) /\
  (forall e, attempt.1 = Raise e -> e <> ApiException (Some 422%Z) ->
     create_bucket self bucket w = (Raise e, attempt.2)) /\
  (attempt.1 = Ok tt -> create_bucket self bucket w = (Ok tt, attempt.2)) /\
  (forall buckets,
     let w0 : world (gset string) :=
       {| heap := ∅; db := buckets; trace := [] |} in
     let first := create_bucket store_facade bucket w0 in
     let second := create_bucket store_facade bucket first.2 in
     first.1 = Ok tt /\ second.1 = Ok tt /\ bucket ∈ db second.2 /\
     trace second.2 = [EvCreateBucket bucket; EvCreateBucket bucket]).
Proof.
  intros Hapi. cbv zeta. unfold create_bucket. rewrite Hapi.
  destruct (call (EvCreateBucket bucket) (create_bucket_of c bucket) w)
    as [[[]|e] w'] eqn:Hcall; cbn [fst snd].
  - split; [discriminate|]. split; [discriminate|]. split; [reflexivity|].
    apply create_twice.
  - split; [|split; [|split; [discriminate|apply create_twice]]].
    + intros [= ->]. now rewrite bool_decide_eq_true_2.
    + intros e' [= <-] Hne. destruct e as [| | | |status| |]; try reflexivity.
      rewrite bool_decide_eq_false_2; [reflexivity|congruence].
Qed.

(** What [write_a_dataframe] does with additional tags: the list object
    gets the tag names, the frame gets the tag columns, and the two are
    forwarded. *)
Lemma write_a_dataframe_tags self c project measurement_name dataframe
    tag_columns tags w names :
  _write_api self = WriteApi c ->
  heap w !! default default_tag_columns tag_columns = Some names ->
  let l := default default_tag_columns tag_columns in
  let names' := names ++ map fst tags in
  let combined :=
    {| index := index dataframe;
       columns := columns dataframe ++
         fold_left (fun cols kv =>
                      set_column kv.1 (replicate (len dataframe) kv.2) cols)
                   tags [] |} in
  write_a_dataframe self project measurement_name dataframe tag_columns
    (Some tags) w
  = call (EvWriteFrame project combined measurement_name l names')
      (write_frame_of c project combined measurement_name names')
      {| heap := <[l := names']> (heap w); db := db w; trace := trace w |}.
Proof.
  intros Hc Hl. cbv zeta. unfold write_a_dataframe.
  unfold mbind, stx_bind.
  rewrite (tag_loop_run tags _ dataframe _ w names Hl) by reflexivity.
  unfold concat_axis1, empty_on. cbn [index columns].
  rewrite bool_decide_eq_true_2 by reflexivity.
  rewrite (write_frame_run self c) by exact Hc.
  cbn [heap]. now rewrite lookup_insert_eq.
Qed.

(** C5.  With additional tags, [write_a_dataframe] forwards the tag-column
    list it was given with the tag names appended in the order of the
    mapping, and a frame over the same rows whose columns are those of the
    original followed by one column per tag that repeats the tag's value on
    every row.  Without additional tags it forwards the frame and the list
    as they are. *)
Theorem write_a_dataframe_forwards self c project measurement_name dataframe
    tag_columns tags w names :
  _write_api self = WriteApi c ->
  heap w !! default default_tag_columns tag_columns = Some names ->
  NoDup (map fst tags) ->
  let l := default default_tag_columns tag_columns in
  let names' := names ++ map fst tags in
  let combined :=
    {| index := index dataframe;
       columns := columns dataframe ++ map (tag_column (len dataframe)) tags |} in
  write_a_dataframe self project measurement_name dataframe tag_columns
    (Some tags) w
  = call (EvWriteFrame project combined measurement_name l names')
      (write_frame_of c project combined measurement_name names')
      {| heap := <[l := names']> (heap w); db := db w; trace := trace w |} /\
  write_a_dataframe self project measurement_name dataframe tag_columns None w
  = call (EvWriteFrame project dataframe measurement_name l names)
      (write_frame_of c project dataframe measurement_name names) w.
Proof.
  intros Hc Hl Hnd. cbv zeta. split.
  - rewrite (write_a_dataframe_tags self c _ _ _ _ _ _ names Hc Hl). cbv zeta.
    rewrite tag_columns_added by (exact Hnd || (intros k _ [])).
    reflexivity.
  - unfold write_a_dataframe. rewrite (write_frame_run self c) by exact Hc.
    cbv zeta. now rewrite Hl.
Qed.

(** C8.  The guard of [get_points] and [get_dataframe] tests the bound
    method [self.health], which is true: both run as they would without the
    guard, its error is never raised by it, and neither calls [health()]:
    the trace gains the query that is sent, if one is, and nothing else. *)
Theorem health_guard_never_fires self kw w :
  truthy (health_attr self) = true /\
  get_points self kw w =
    (query ← lift (build_query_kw kw);
     let 'QueryApi c := _query_api self in
     call (EvQuery query) (query_of c query)) w /\
  get_dataframe self kw w =
    (query ← lift (build_query_kw kw);
     let 'QueryApi c := _query_api self in
     call (EvQueryDataFrame query) (query_data_frame_of c query)) w /\
  trace (get_points self kw w).2 =
    trace w ++ match build_query_kw kw with
               | Ok query => [EvQuery query]
               | Raise _ => []
               end /\
  trace (get_dataframe self kw w).2 =
    trace w ++ match build_query_kw kw with
               | Ok query => [EvQueryDataFrame query]
               | Raise _ => []
               end /\
  health_calls (trace (get_points self kw w).2) = health_calls (trace w) /\
  health_calls (trace (get_dataframe self kw w).2) = health_calls (trace w).
Proof.
  assert (Hp : trace (get_points self kw w).2 =
    trace w ++ match build_query_kw kw with
               | Ok query => [EvQuery query]
               | Raise _ => []
               end).
  { rewrite get_points_run. destruct (build_query_kw kw) as [q|e].
    - destruct (_query_api self) as [c]. now rewrite call_run.
    - cbn. now rewrite app_nil_r. }
  assert (Hd : trace (get_dataframe self kw w).2 =
    trace w ++ match build_query_kw kw with
               | Ok query => [EvQueryDataFrame query]
               | Raise _ => []
               end).
  { rewrite get_dataframe_run. destruct (build_query_kw kw) as [q|e].
    - destruct (_query_api self) as [c]. now rewrite call_run.
    - cbn. now rewrite app_nil_r. }
  repeat split; try assumption.
  - rewrite Hp. unfold health_calls. rewrite List.filter_app, length_app.
    destruct (build_query_kw kw); cbn; lia.
  - rewrite Hd. unfold health_calls. rewrite List.filter_app, length_app.
    destruct (build_query_kw kw); cbn; lia.
Qed.

(** [connect], for contrast, does call [health()]. *)
Lemma connect_calls_health self w :
  health_calls (trace (connect self w).2) = S (health_calls (trace w)).
Proof.
  unfold connect, health. run. rewrite call_run.
  destruct (health_of (_client self) (db w)) as [[v|e] d]; cbn [fst snd];
    [destruct (negb (truthy v))|]; cbn [snd trace];
    unfold health_calls; rewrite List.filter_app, length_app; cbn; lia.
Qed.

(** C9.  With additional tags, [write_a_dataframe] appends every tag name to
    the list object it was given as [tag_columns]; without, it leaves the
    list as it was.  The list object of the default is shared by the calls
    that omit [tag_columns]: after one such call with tags, a second one
    forwards the names of the first call's tags before its own. *)
Theorem write_a_dataframe_mutates_tag_columns self c project measurement_name
    dataframe tag_columns w names :
  _write_api self = WriteApi c ->
  heap w !! default default_tag_columns tag_columns = Some names ->
  let l := default default_tag_columns tag_columns in
  (forall tags,
     heap (write_a_dataframe self project measurement_name dataframe tag_columns
             (Some tags) w).2
     = <[l := names ++ map fst tags]> (heap w)) /\
  heap (write_a_dataframe self project measurement_name dataframe tag_columns
          None w).2 = heap w /\
  (forall tags1 tags2 dataframe2,
     tag_columns = None ->
     let w1 := (write_a_dataframe self project measurement_name dataframe None
                  (Some tags1) w).2 in
     let w2 := (write_a_dataframe self project measurement_name dataframe2 None
                  (Some tags2) w1).2 in
     exists frame1 frame2,
       trace w2 = trace w ++
         [EvWriteFrame project frame1 measurement_name default_tag_columns
            (names ++ map fst tags1);
          EvWriteFrame project frame2 measurement_name default_tag_columns
            (names ++ map fst tags1 ++ map fst tags2)]).
Proof.
  intros Hc Hl. cbv zeta. split; [|split].
  - intros tags.
    rewrite (write_a_dataframe_tags self c _ _ _ _ _ _ names Hc Hl). cbv zeta.
    now rewrite call_run.
  - unfold write_a_dataframe. rewrite (write_frame_run self c) by exact Hc.
    cbv zeta. now rewrite call_run.
  - intros tags1 tags2 dataframe2 ->. cbn [default] in Hl.
    rewrite (write_a_dataframe_tags self c _ _ dataframe None tags1 w names Hc Hl).
    cbv zeta. rewrite call_run. cbn [snd default].
    erewrite (write_a_dataframe_tags self c _ _ dataframe2 None tags2 _
                (names ++ map fst tags1) Hc);
      [|cbn [heap default]; apply lookup_insert_eq].
    cbv zeta. rewrite call_run. cbn [snd trace default].
    do 2 eexists. rewrite <- !app_assoc. reflexivity.
Qed.

End FacadeProperties.

(** *** Examples on the bucket store *)

Lemma invalid_timestamp_rejected_witness :
  turned_down (PyDatetime sample_naive) /\ aware sample_start /\
  build_query "weather" [] (Some (PyDatetime sample_start))
    (Some (PyDatetime sample_naive)) "5m"
  = Raise (Exception
      "The time 2021-03-01T00:00:00 has no timezone info. That is necassary.") /\
  test_datetime (PyDatetime sample_start) "" = (Ok tt, "").
Proof.
  assert (Hs : aware sample_start) by (eexists; reflexivity).
  assert (Hn : turned_down (PyDatetime sample_naive)) by reflexivity.
  split; [exact Hn|]. split; [exact Hs|].
  destruct (invalid_timestamp_rejected store_facade fresh_world
              "weather" [] "5m" (Some (PyDatetime sample_start))
              (Some (PyDatetime sample_naive))) as (Hbad & Hok & Haware).
  split; [|exact (Hok sample_start "" (Haware sample_start Hs))].
  destruct (Hbad (PyDatetime sample_naive) (or_intror eq_refl) Hn)
    as (e & _ & Hraise & _).
  reflexivity.
Defined.

Lemma write_a_dataframe_forwards_witness :
  let w : world (gset string) :=
    {| heap := sample_heap; db := ∅; trace := [] |} in
  trace (write_a_dataframe store_facade "project" "weather" sample_frame
           (Some caller_list) (Some [("site", "A")]) w).2
  = [EvWriteFrame "project"
       {| index := ["0"; "1"; "2"];
          columns := [("device", ["d1"; "d1"; "d2"]); ("temp", ["20"; "21"; "19"]);
                      ("site", ["A"; "A"; "A"])] |}
       "weather" caller_list ["device"; "site"]] /\
  trace (write_a_dataframe store_facade "project" "weather" sample_frame
           (Some caller_list) None w).2
  = [EvWriteFrame "project" sample_frame "weather" caller_list ["device"]].
Proof.
  cbv zeta.
  assert (Hl : sample_heap !! default default_tag_columns (Some caller_list)
               = Some ["device"]) by reflexivity.
  assert (Hnd : NoDup (map fst [("site", "A")]))
    by (apply NoDup_singleton).
  destruct (write_a_dataframe_forwards store_facade bucket_store_client
              "project" "weather" sample_frame (Some caller_list)
              [("site", "A")] {| heap := sample_heap; db := ∅; trace := [] |}
              ["device"] eq_refl Hl Hnd) as [Htags Hplain].
  rewrite Htags, Hplain, !call_run. split; reflexivity.
Defined.

Lemma init_requires_connection_fields_witness :
  let connect_to := fun _ _ _ : string => bucket_store_client in
  (exists e, ConfigurationError e /\
     __init__ connect_to (Some "db.example.org") None default_organization
       (Some "secret") None fresh_world = (Raise e, fresh_world)) /\
  __init__ connect_to (Some "db.example.org") (Some 8086%Z) default_organization
    (Some "secret") None fresh_world
  = (Ok store_facade,
     {| heap := heap fresh_world; db := ∅;
        trace := [EvNewClient "https://db.example.org:8086" "secret" "GEWV";
                  EvWriteApi; EvQueryApi; EvBucketsApi] |}).
Proof.
  cbv zeta. split.
  - exact (proj1 (init_requires_connection_fields
                    (fun _ _ _ => bucket_store_client) (Some "db.example.org")
                    None default_organization (Some "secret") None fresh_world)
             eq_refl (or_intror (or_introl eq_refl))).
  - exact (proj1 (proj2 (init_requires_connection_fields
                    (fun _ _ _ => bucket_store_client) (Some "db.example.org")
                    (Some 8086%Z) default_organization (Some "secret") None
                    fresh_world))
             "db.example.org" 8086%Z "secret" eq_refl eq_refl eq_refl eq_refl).
Defined.

Lemma create_bucket_swallows_conflict_witness :
  let fresh : world (gset string) := fresh_world in
  let taken : world (gset string) :=
    {| heap := ∅; db := {["weather"]}; trace := [] |} in
  create_bucket store_facade "weather" fresh
  = (Ok tt, {| heap := heap fresh_world; db := {["weather"]} ∪ ∅;
               trace := [EvCreateBucket "weather"] |}) /\
  create_bucket store_facade "weather" taken
  = (Ok tt, {| heap := ∅; db := {["weather"]};
               trace := [EvCreateBucket "weather"] |}).
Proof.
  cbv zeta. split.
  - destruct (create_bucket_swallows_conflict store_facade bucket_store_client
                "weather" fresh_world eq_refl) as (_ & _ & Hok & _).
    rewrite Hok; [|rewrite call_run]; reflexivity.
  - destruct (create_bucket_swallows_conflict store_facade bucket_store_client
                "weather" {| heap := ∅; db := {["weather"]}; trace := [] |}
                eq_refl) as (Hconflict & _).
    rewrite Hconflict; rewrite call_run; reflexivity.
Defined.

Lemma write_a_dataframe_mutates_tag_columns_witness :
  let w1 := (write_a_dataframe store_facade "project" "weather" sample_frame
               None (Some [("site", "A")]) fresh_world).2 in
  let w2 := (write_a_dataframe store_facade "project" "weather" sample_frame
               None (Some [("room", "r1")]) w1).2 in
  heap w1 = <[default_tag_columns := ["site"]]> (heap fresh_world) /\
  exists frame1 frame2,
    trace w2 =
      [EvWriteFrame "project" frame1 "weather" default_tag_columns ["site"];
       EvWriteFrame "project" frame2 "weather" default_tag_columns
         ["site"; "room"]].
Proof.
  cbv zeta.
  destruct (write_a_dataframe_mutates_tag_columns store_facade
              bucket_store_client "project" "weather" sample_frame None
              fresh_world [] eq_refl eq_refl) as (Hheap & _ & Htwice).
  split.
  - exact (Hheap [("site", "A")]).
  - exact (Htwice [("site", "A")] [("room", "r1")] sample_frame eq_refl).
Defined.

(** ** Further properties of the query builder *)

Section BuilderMore.

Lemma accepted_test_datetime {S} x (s : S) :
  accepted (Some x) = true -> test_datetime x s = (Ok tt, s).
Proof.
  destruct x as [d|str]; cbn; [|discriminate].
  now destruct (tzinfo d).
Qed.

(** X2.  The start bound is checked before the end bound, and the type of
    a bound before its time zone: a start that is not a datetime gives the
    message about the type with [str(start_time)], a start without
    [tzinfo] the message about the time zone with its [isoformat],
    whatever the end is; the end is reported only when the start is
    absent or passes. *)
Theorem build_query_error_order project fields precision st en :
  (forall s, st = Some (PyOther s) ->
     build_query project fields st en precision =
       Raise (Exception
         ("The delivered datetime " +:+ s +:+ " is not from type datetime."))) /\
  (forall d, st = Some (PyDatetime d) -> tzinfo d = None ->
     build_query project fields st en precision =
       Raise (Exception
         ("The time " +:+ isoformat d +:+
          " has no timezone info. That is necassary."))) /\
  (forall s, accepted st = true -> en = Some (PyOther s) ->
     build_query project fields st en precision =
       Raise (Exception
         ("The delivered datetime " +:+ s +:+ " is not from type datetime."))) /\
  (forall d, accepted st = true -> en = Some (PyDatetime d) -> tzinfo d = None ->
     build_query project fields st en precision =
       Raise (Exception
         ("The time " +:+ isoformat d +:+
          " has no timezone info. That is necassary."))).
Proof.
  repeat split.
  - intros s ->. rewrite build_query_run. now destruct en.
  - intros d -> Hd. rewrite build_query_run.
    destruct en; unfold time_range, test_datetime; rewrite Hd; reflexivity.
  - intros s Hs ->. rewrite build_query_run.
    destruct st as [x|]; [|reflexivity].
    unfold time_range. run. now rewrite (accepted_test_datetime x "" Hs).
  - intros d Hs -> Hd. rewrite build_query_run.
    destruct st as [x|].
    + unfold time_range. run. rewrite (accepted_test_datetime x "" Hs).
      unfold test_datetime. now rewrite Hd.
    + unfold time_range, test_datetime. run. now rewrite Hd.
Qed.

Lemma build_query_error_order_witness :
  build_query "weather" [] (Some (PyDatetime sample_naive))
    (Some (PyOther "tomorrow")) "5m"
  = Raise (Exception
      "The time 2021-03-01T00:00:00 has no timezone info. That is necassary.") /\
  build_query "weather" [] (Some (PyDatetime sample_start))
    (Some (PyOther "tomorrow")) "5m"
  = Raise (Exception "The delivered datetime tomorrow is not from type datetime.").
Proof.
  split.
  - exact (proj1 (proj2 (build_query_error_order "weather" [] "5m"
             (Some (PyDatetime sample_naive)) (Some (PyOther "tomorrow"))))
             sample_naive eq_refl eq_refl).
  - exact (proj1 (proj2 (proj2 (build_query_error_order "weather" [] "5m"
             (Some (PyDatetime sample_start)) (Some (PyOther "tomorrow")))))
             "tomorrow" eq_refl eq_refl).
Defined.

(** *** The number of stages *)

Lemma pipe_in_opening project :
  occurrences "|>" (opening project) = occurrences "|>" project.
Proof. count. lia. Qed.

Lemma pipe_in_closing a precision :
  occurrences "|>" (a +:+ closing precision) =
  occurrences "|>" a + 2 + occurrences "|>" precision.
Proof. count. lia. Qed.

Lemma pipe_in_filter_stage a fv :
  occurrences "|>" (a +:+ piped (filter_clause fv)) =
  occurrences "|>" a + 1 + occurrences "|>" fv.1 + occurrences "|>" fv.2.
Proof. count. lia. Qed.

Lemma pipe_in_filters a fields precision :
  occurrences "|>" (a +:+ filters fields +:+ closing precision) =
  occurrences "|>" a + List.length fields + 2 +
  occurrences_in_items "|>" fields + occurrences "|>" precision.
Proof.
  revert a. induction fields as [|[f v] fields IH]; intros a.
  - change (filters []) with "". change ("" +:+ closing precision) with (closing precision).
    rewrite pipe_in_closing. cbn. lia.
  - rewrite filters_cons, append_assoc, <- (append_assoc a), IH,
      pipe_in_filter_stage. cbn. lia.
Qed.

Lemma pipe_in_isoformat d : occurrences "|>" (isoformat d) = 0.
Proof.
  apply occurrences_absent.
  apply (chars_in_absent iso_alphabet); [apply chars_in_isoformat | reflexivity].
Qed.

Lemma pipe_in_range_both a s e :
  occurrences "|>" (a +:+ piped (range_both s e)) =
  occurrences "|>" a + 1 + occurrences "|>" s + occurrences "|>" e.
Proof. count. lia. Qed.

Lemma pipe_in_range_start a s :
  occurrences "|>" (a +:+ piped (range_start s)) =
  occurrences "|>" a + 1 + occurrences "|>" s.
Proof. count. lia. Qed.

Lemma pipe_in_range_stop a e :
  occurrences "|>" (a +:+ piped (range_stop e)) =
  occurrences "|>" a + 1 + occurrences "|>" e.
Proof. count. lia. Qed.

(** X3.  A query is the source followed by as many piped stages as the
    call asks for: one range stage when a bound is given, one filter stage
    per entry of the mapping, and the two closing stages.  The pipe-forward
    operator occurs that many times, beyond the occurrences the caller's
    own strings bring along; the bounds never bring one. *)
Theorem build_query_stage_count project fields st en precision q :
  build_query project fields st en precision = Ok q ->
  occurrences "|>" q =
    bounded st en + List.length fields + 2 +
    carried "|>" project fields precision.
Proof.
  intros H. destruct (build_query_ok _ _ _ _ _ _ H) as (piece & Hp & ->).
  unfold carried, bounded.
  rewrite <- append_assoc, pipe_in_filters.
  destruct Hp;
    rewrite ?pipe_in_range_both, ?pipe_in_range_start, ?pipe_in_range_stop,
      ?append_nil_r, ?pipe_in_isoformat, pipe_in_opening; lia.
Qed.

Lemma build_query_stage_count_witness :
  build_query "weather" [("sensor", "t1"); ("room", "a")]
    (Some (PyDatetime sample_start)) None "5m"
  = Ok (opening "weather" +:+ piped (range_start (isoformat sample_start)) +:+
        filters [("sensor", "t1"); ("room", "a")] +:+ closing "5m") /\
  occurrences "|>"
    (opening "weather" +:+ piped (range_start (isoformat sample_start)) +:+
     filters [("sensor", "t1"); ("room", "a")] +:+ closing "5m") = 5.
Proof.
  assert (H : build_query "weather" [("sensor", "t1"); ("room", "a")]
                (Some (PyDatetime sample_start)) None "5m"
    = Ok (opening "weather" +:+ piped (range_start (isoformat sample_start)) +:+
          filters [("sensor", "t1"); ("room", "a")] +:+ closing "5m"))
    by reflexivity.
  split; [exact H|].
  rewrite (build_query_stage_count _ _ _ _ _ _ H). reflexivity.
Defined.

End BuilderMore.

(** ** Further properties of the facade *)

Section FacadeMore.

Context {store : Type}.
Implicit Types (self : TimeseriesClient store) (w : world store).

(** X4.  Without a client, [__init__] checks host, port and token in that
    order and reports the first one that is missing, whatever the later
    ones are; in each case the world is left as it was. *)
Theorem init_reports_first_missing connect_to host port organization token w :
  (host = None ->
     __init__ connect_to host port organization token None w =
       (Raise (Exception "Missing Host Address for Timeseries DB Client."), w)) /\
  (is_Some host -> port = None ->
     __init__ connect_to host port organization token None w =
       (Raise (Exception "Missing Port for Timeseries DB Client."), w)) /\
  (is_Some host -> is_Some port -> token = None ->
     __init__ connect_to host port organization token None w =
       (Raise (Exception "Missing Token for Timeseries DB Client."), w)).
Proof.
  repeat split.
  - now intros ->.
  - now intros [h ->] ->.
  - now intros [h ->] [p ->] ->.
Qed.

(** X6.  [connect] asks the client's health once.  It returns normally
    when the answer is true as a Python value, which every object is, raises
    that the database is not reachable when the answer is [None] or
    [False], and lets an exception of the health call through unchanged; the
    store is left as the health call left it. *)
Theorem connect_outcome self w :
  let attempt := health_of (_client self) (db w) in
  let after := {| heap := heap w; db := attempt.2; trace := trace w ++ [EvHealth] |} in
  (forall v, attempt.1 = Ok v -> truthy v = true ->
     connect self w = (Ok tt, after)) /\
  (forall v, attempt.1 = Ok v -> truthy v = false ->
     connect self w = (Raise (Exception "Influx DB is not reachable."), after)) /\
  (forall e, attempt.1 = Raise e -> connect self w = (Raise e, after)) /\
  (forall cls, attempt.1 = Ok (VObject cls) -> connect self w = (Ok tt, after)).
Proof.
  cbv zeta. unfold connect, health. run. rewrite call_run.
  destruct (health_of (_client self) (db w)) as [[v|e] d]; cbn [fst snd].
  - repeat split; try discriminate.
    + intros v' [= <-] Hv. now rewrite Hv.
    + intros v' [= <-] Hv. now rewrite Hv.
    + now intros cls [= ->].
  - repeat split; try discriminate. now intros e' [= <-].
Qed.

(** X7.  [get_points] and [get_dataframe] pass their keywords on to
    [build_query]: without [project], or with a keyword [build_query] does
    not have, both raise a [TypeError] before any timestamp is checked,
    send nothing and leave the world as it was. *)
Theorem read_keyword_errors self kw w :
  kw_project kw = None \/ kw_other kw <> [] ->
  exists msg,
    build_query_kw kw = Raise (TypeError msg) /\
    get_points self kw w = (Raise (TypeError msg), w) /\
    get_dataframe self kw w = (Raise (TypeError msg), w).
Proof.
  intros H.
  assert (Hkw : exists msg, build_query_kw kw = Raise (TypeError msg)).
  { unfold build_query_kw. destruct (kw_other kw) as [|k ks]; [|eauto].
    destruct H as [-> | H]; [eauto | congruence]. }
  destruct Hkw as [msg Hmsg]. exists msg.
  now rewrite get_points_run, get_dataframe_run, Hmsg.
Qed.

(** X5.  [from_env_properties] needs no host, port or token: it never
    raises, never builds a client from a URL, and the facade it returns is
    bound to the environment's client, so that connecting through it asks
    that client's health. *)
Theorem from_env_properties_binds_client connect_to env_client w :
  let self := {| _client := env_client; _write_api := WriteApi env_client;
                 _query_api := QueryApi env_client;
                 _bucket_api := BucketsApi env_client |} in
  let built := {| heap := heap w; db := db w;
                  trace := trace w ++ [EvWriteApi; EvQueryApi; EvBucketsApi] |} in
  from_env_properties connect_to env_client w = (Ok self, built) /\
  (c ← from_env_properties connect_to env_client; connect c) w =
    connect self built /\
  trace ((c ← from_env_properties connect_to env_client; connect c) w).2 =
    trace w ++ [EvWriteApi; EvQueryApi; EvBucketsApi; EvHealth].
Proof.
  cbv zeta.
  assert (H : from_env_properties connect_to env_client w =
    (Ok {| _client := env_client; _write_api := WriteApi env_client;
           _query_api := QueryApi env_client;
           _bucket_api := BucketsApi env_client |},
     {| heap := heap w; db := db w;
        trace := trace w ++ [EvWriteApi; EvQueryApi; EvBucketsApi] |})).
  { unfold from_env_properties, __init__, log. run. cbn.
    now rewrite <- !app_assoc. }
  split; [exact H|].
  assert (Hc : (c ← from_env_properties connect_to env_client; connect c) w =
    connect {| _client := env_client; _write_api := WriteApi env_client;
               _query_api := QueryApi env_client;
               _bucket_api := BucketsApi env_client |}
      {| heap := heap w; db := db w;
         trace := trace w ++ [EvWriteApi; EvQueryApi; EvBucketsApi] |}).
  { unfold mbind at 1, stx_bind at 1. now rewrite H. }
  split; [exact Hc|]. rewrite Hc.
  unfold connect, health. run. rewrite call_run. cbn [_client db trace heap].
  destruct (health_of env_client (db w)) as [[v|e] d]; cbn [fst snd];
    [destruct (negb (truthy v))|]; cbn [snd trace]; now rewrite <- app_assoc.
Qed.

(** *** Writing frames *)

Lemma alter_twice {A} (f g : A -> A) (l : loc) (h : gmap loc A) :
  alter f l (alter g l h) = alter (fun x => f (g x)) l h.
Proof.
  apply map_eq. intros i. destruct (decide (l = i)) as [->|Hne].
  - rewrite !lookup_alter_eq. now destruct (h !! i).
  - now rewrite !lookup_alter_ne.
Qed.

(** The loop on any world: no assumption on the list object. *)
Lemma tag_loop_any items l dataframe tags_dataframe w :
  len tags_dataframe = len dataframe ->
  tag_loop items l dataframe tags_dataframe w =
    (Ok {| index := index tags_dataframe;
           columns :=
             fold_left (fun cols kv =>
                          set_column kv.1 (replicate (len dataframe) kv.2) cols)
                       items (columns tags_dataframe) |},
     {| heap := alter (fun xs => xs ++ map fst items) l (heap w); db := db w;
        trace := trace w |}).
Proof.
  revert tags_dataframe w.
  induction items as [|[k v] items IH]; intros tdf w Hlen.
  - cbn. rewrite alter_id by (intros; apply app_nil_r).
    now destruct tdf, w.
  - cbn [tag_loop]. unfold list_append, lift, setitem. run.
    rewrite length_replicate, Hlen, bool_decide_eq_true_2 by reflexivity.
    rewrite IH by exact Hlen.
    cbn [heap db trace index columns fold_left map fst snd].
    rewrite alter_twice. do 2 f_equal.
    apply alter_ext. intros xs _. now rewrite <- app_assoc.
Qed.

Lemma write_a_dataframe_tags_any self c project measurement_name dataframe
    tag_columns tags w :
  _write_api self = WriteApi c ->
  let l := default default_tag_columns tag_columns in
  let h := alter (fun xs => xs ++ map fst tags) l (heap w) in
  let names := default [] (h !! l) in
  let combined :=
    {| index := index dataframe;
       columns := columns dataframe ++
         fold_left (fun cols kv =>
                      set_column kv.1 (replicate (len dataframe) kv.2) cols)
                   tags [] |} in
  write_a_dataframe self project measurement_name dataframe tag_columns
    (Some tags) w
  = call (EvWriteFrame project combined measurement_name l names)
      (write_frame_of c project combined measurement_name names)
      {| heap := h; db := db w; trace := trace w |}.
Proof.
  intros Hc. cbv zeta. unfold write_a_dataframe.
  unfold mbind, stx_bind.
  rewrite (tag_loop_any tags _ dataframe _ w) by reflexivity.
  unfold concat_axis1, empty_on. cbn [index columns].
  rewrite bool_decide_eq_true_2 by reflexivity.
  now rewrite (write_frame_run self c) by exact Hc.
Qed.

Lemma set_column_length name values cols :
  List.length (set_column name values cols) <= S (List.length cols).
Proof.
  induction cols as [|[n vs] cols IH]; cbn; [lia|].
  destruct (bool_decide (n = name)); cbn; lia.
Qed.

Lemma set_column_in name values cols col :
  In col (set_column name values cols) -> col = (name, values) \/ In col cols.
Proof.
  induction cols as [|[n vs] cols IH]; cbn.
  - intros [<-|[]]. now left.
  - destruct (bool_decide (n = name)) eqn:E; cbn.
    + apply bool_decide_eq_true in E as ->. intros [<-|H]; auto.
    + intros [<-|H]; [auto|]. destruct (IH H); auto.
Qed.

Lemma tag_columns_shape n items cols :
  let r := fold_left (fun cols kv => set_column kv.1 (replicate n kv.2) cols)
             items cols in
  List.length r <= List.length cols + List.length items /\
  (forall col, In col r ->
     In col cols \/ exists kv, In kv items /\ col = tag_column n kv).
Proof.
  cbv zeta. revert cols. induction items as [|[k v] items IH]; intros cols.
  - cbn. split; [lia|auto].
  - cbn [fold_left fst snd].
    destruct (IH (set_column k (replicate n v) cols)) as [Hlen Hin]. split.
    + pose proof (set_column_length k (replicate n v) cols). cbn. lia.
    + intros col Hcol. destruct (Hin col Hcol) as [H|(kv & Hkv & ->)].
      * apply set_column_in in H as [->|H]; [|auto].
        right. exists (k, v). split; [now left|reflexivity].
      * right. exists kv. split; [now right|reflexivity].
Qed.

(** X8.  [write_a_dataframe] makes exactly one call on the write delegate,
    for the bucket and measurement it was given, and its outcome is that
    call's outcome: it raises only what the delegate raises.  Setting the
    tag columns and joining the two frames cannot fail, whatever the frame,
    the tags and the list are. *)
Theorem write_a_dataframe_outcome self c project measurement_name dataframe
    tag_columns additional_tags w :
  _write_api self = WriteApi c ->
  exists record names,
    let sent := write_frame_of c project record measurement_name names (db w) in
    let done := write_a_dataframe self project measurement_name dataframe
                  tag_columns additional_tags w in
    done.1 = sent.1 /\
    db done.2 = sent.2 /\
    trace done.2 = trace w ++
      [EvWriteFrame project record measurement_name
         (default default_tag_columns tag_columns) names] /\
    index record = index dataframe.
Proof.
  intros Hc. destruct additional_tags as [tags|].
  - rewrite (write_a_dataframe_tags_any self c _ _ _ _ _ _ Hc). cbv zeta.
    do 2 eexists. rewrite call_run. cbn [fst snd db trace heap index].
    repeat split; reflexivity.
  - unfold write_a_dataframe. rewrite (write_frame_run self c) by exact Hc.
    cbv zeta. do 2 eexists. rewrite call_run. cbn [fst snd db trace heap].
    repeat split; reflexivity.
Qed.

(** X9.  The frame forwarded with additional tags keeps the rows and the
    columns of the original, in place and before anything new: no original
    column is overwritten, also when a tag has the name of one.  Every
    further column is the column of one of the tags, there are at most as
    many as tags, and a frame whose columns all have one cell per row is
    forwarded as such a frame. *)
Theorem write_a_dataframe_keeps_frame self project measurement_name dataframe
    tag_columns tags w :
  exists record names added,
    trace (write_a_dataframe self project measurement_name dataframe
             tag_columns (Some tags) w).2
    = trace w ++
        [EvWriteFrame project record measurement_name
           (default default_tag_columns tag_columns) names] /\
    index record = index dataframe /\
    columns record = columns dataframe ++ added /\
    List.length added <= List.length tags /\
    (forall col, In col added ->
       exists kv, In kv tags /\ col = tag_column (len dataframe) kv) /\
    (rectangular dataframe -> rectangular record).
Proof.
  destruct (_write_api self) as [c] eqn:Hc.
  rewrite (write_a_dataframe_tags_any self c _ _ _ _ _ _ Hc). cbv zeta.
  rewrite call_run. cbn [snd trace].
  destruct (tag_columns_shape (len dataframe) tags []) as [Hlen Hin].
  do 3 eexists. split; [reflexivity|]. cbn [index columns].
  split; [reflexivity|]. split; [reflexivity|]. split; [exact Hlen|]. split.
  - intros col Hcol. destruct (Hin col Hcol) as [[]|H]. exact H.
  - unfold rectangular, len. cbn [index columns]. intros Hrect.
    apply Forall_app. split; [exact Hrect|].
    apply Forall_forall. intros col Hcol.
    apply list_elem_of_In in Hcol.
    destruct (Hin col Hcol) as [[]|(kv & _ & ->)].
    cbn. apply length_replicate.
Qed.

(** X10.  An empty mapping of additional tags is the same as none: the
    frame and the list are forwarded as they are and the list is not
    changed. *)
Theorem write_a_dataframe_no_tags self project measurement_name dataframe
    tag_columns w :
  write_a_dataframe self project measurement_name dataframe tag_columns
    (Some []) w
  = write_a_dataframe self project measurement_name dataframe tag_columns
      None w.
Proof.
  destruct (_write_api self) as [c] eqn:Hc.
  rewrite (write_a_dataframe_tags_any self c _ _ _ _ _ _ Hc). cbv zeta.
  unfold write_a_dataframe. rewrite (write_frame_run self c) by exact Hc.
  cbv zeta. cbn [map fold_left]. rewrite app_nil_r.
  rewrite alter_id by (intros; apply app_nil_r).
  destruct dataframe, w. reflexivity.
Qed.

(** X11.  The list object of the default grows with every call that omits
    [tag_columns] and passes tags: after [n] such calls it holds what it
    held before followed by the tag names [n] times, each call has made one
    write, and the next call forwards the names once more. *)
Theorem default_tag_columns_accumulate self project measurement_name dataframe
    tags w names n :
  heap w !! default_tag_columns = Some names ->
  let wn := after_writes n self project measurement_name dataframe tags w in
  heap wn !! default_tag_columns = Some (names ++ repeated n (map fst tags)) /\
  List.length (trace wn) = List.length (trace w) + n /\
  exists record,
    trace (after_writes (S n) self project measurement_name dataframe tags w)
    = trace wn ++
        [EvWriteFrame project record measurement_name default_tag_columns
           (names ++ repeated (S n) (map fst tags))].
Proof.
  intros Hl. cbv zeta.
  destruct (_write_api self) as [c] eqn:Hc.
  assert (Hstep : forall w' names',
            heap w' !! default_tag_columns = Some names' ->
            let w'' := (write_a_dataframe self project measurement_name
                          dataframe None (Some tags) w').2 in
            heap w'' !! default_tag_columns = Some (names' ++ map fst tags) /\
            exists record,
              trace w'' = trace w' ++
                [EvWriteFrame project record measurement_name
                   default_tag_columns (names' ++ map fst tags)]).
  { intros w' names' Hl'. cbv zeta.
    rewrite (write_a_dataframe_tags self c _ _ dataframe None tags w' names' Hc Hl').
    cbv zeta. rewrite call_run. cbn [snd heap trace default]. split.
    - apply lookup_insert_eq.
    - eexists. reflexivity. }
  assert (Hn : forall k,
            heap (after_writes k self project measurement_name dataframe tags w)
              !! default_tag_columns
            = Some (names ++ repeated k (map fst tags)) /\
            List.length
              (trace (after_writes k self project measurement_name dataframe
                        tags w))
            = List.length (trace w) + k).
  { induction k as [|k [IHh IHt]].
    - cbn. rewrite app_nil_r. split; [exact Hl|lia].
    - cbn [after_writes repeated].
      destruct (Hstep _ _ IHh) as [Hh [record Ht]]. split.
      + rewrite Hh. now rewrite app_assoc.
      + rewrite Ht, length_app, IHt. cbn. lia. }
  destruct (Hn n) as [Hh Ht]. split; [exact Hh|]. split; [exact Ht|].
  cbn [after_writes repeated].
  destruct (Hstep _ _ Hh) as [_ [record Hrec]].
  exists record. rewrite Hrec. now rewrite app_assoc.
Qed.

(** X12.  Only [write_a_dataframe] with additional tags touches a list
    object, and only the one it was given: every other operation of the
    facade, the construction included, leaves all list objects as they
    were. *)
Theorem facade_keeps_list_objects self connect_to host port organization token
    client bucket kw project points measurement_name dataframe tag_columns w :
  heap (__init__ connect_to host port organization token client w).2 = heap w /\
  heap (health self w).2 = heap w /\
  heap (connect self w).2 = heap w /\
  heap (create_bucket self bucket w).2 = heap w /\
  heap (get_points self kw w).2 = heap w /\
  heap (get_dataframe self kw w).2 = heap w /\
  heap (write_points self project points w).2 = heap w /\
  heap (write_a_dataframe self project measurement_name dataframe tag_columns
          None w).2 = heap w /\
  (forall tags l,
     l <> default default_tag_columns tag_columns ->
     heap (write_a_dataframe self project measurement_name dataframe
             tag_columns (Some tags) w).2 !! l = heap w !! l).
Proof.
  repeat split.
  - unfold __init__, log. run.
    destruct client as [c|]; [reflexivity|].
    destruct host; [|reflexivity]. destruct port; [|reflexivity].
    now destruct token.
  - unfold health. now rewrite call_run.
  - unfold connect, health. run. rewrite call_run.
    destruct (health_of (_client self) (db w)) as [[v|e] d]; cbn [fst snd];
      [now destruct (negb (truthy v))|reflexivity].
  - unfold create_bucket. destruct (_bucket_api self) as [c]. rewrite call_run.
    destruct (create_bucket_of c bucket (db w)) as [[[]|e] d]; cbn [fst snd];
      [reflexivity|].
    destruct e; try reflexivity.
    now destruct (negb (bool_decide (status = Some 422%Z))).
  - rewrite get_points_run. destruct (build_query_kw kw); [|reflexivity].
    destruct (_query_api self). now rewrite call_run.
  - rewrite get_dataframe_run. destruct (build_query_kw kw); [|reflexivity].
    destruct (_query_api self). now rewrite call_run.
  - unfold write_points. destruct (_write_api self). now rewrite call_run.
  - destruct (_write_api self) as [c] eqn:Hc. unfold write_a_dataframe.
    rewrite (write_frame_run self c) by exact Hc. cbv zeta. now rewrite call_run.
  - intros tags l Hl. destruct (_write_api self) as [c] eqn:Hc.
    rewrite (write_a_dataframe_tags_any self c _ _ _ _ _ _ Hc). cbv zeta.
    rewrite call_run. cbn [snd heap]. now apply lookup_alter_ne.
Qed.

End FacadeMore.

(** *** Further examples on the bucket store *)

Lemma init_reports_first_missing_witness :
  __init__ (fun _ _ _ => bucket_store_client) None None default_organization
    None None fresh_world
  = (Raise (Exception "Missing Host Address for Timeseries DB Client."),
     fresh_world) /\
  __init__ (fun _ _ _ => bucket_store_client) (Some "db.example.org")
    (Some 8086%Z) default_organization None None fresh_world
  = (Raise (Exception "Missing Token for Timeseries DB Client."), fresh_world).
Proof.
  split.
  - exact (proj1 (init_reports_first_missing (fun _ _ _ => bucket_store_client)
                    None None default_organization None fresh_world) eq_refl).
  - exact (proj2 (proj2 (init_reports_first_missing
                    (fun _ _ _ => bucket_store_client) (Some "db.example.org")
                    (Some 8086%Z) default_organization None fresh_world))
             (ex_intro _ "db.example.org" eq_refl)
             (ex_intro _ 8086%Z eq_refl) eq_refl).
Defined.

Lemma connect_outcome_witness :
  connect store_facade fresh_world
  = (Ok tt, {| heap := heap fresh_world; db := ∅; trace := [EvHealth] |}).
Proof.
  exact (proj2 (proj2 (proj2 (connect_outcome store_facade fresh_world)))
           "HealthCheck" eq_refl).
Defined.

Lemma read_keyword_errors_witness :
  let kw := {| kw_project := None; kw_fields := None;
               kw_start_time := Some (PyOther "now"); kw_end_time := None;
               kw_precision := None; kw_other := [] |} in
  kw_project kw = None /\
  exists msg, get_points store_facade kw fresh_world
              = (Raise (TypeError msg), fresh_world).
Proof.
  cbv zeta. split; [reflexivity|].
  destruct (read_keyword_errors store_facade
              {| kw_project := None; kw_fields := None;
                 kw_start_time := Some (PyOther "now"); kw_end_time := None;
                 kw_precision := None; kw_other := [] |}
              fresh_world (or_introl eq_refl)) as (msg & _ & Hp & _).
  exists msg. exact Hp.
Defined.

Lemma write_a_dataframe_outcome_witness :
  _write_api store_facade = WriteApi bucket_store_client /\
  (write_a_dataframe store_facade "project" "weather" sample_frame None
     (Some [("site", "A")]) fresh_world).1 = Ok tt.
Proof.
  split; [reflexivity|].
  destruct (write_a_dataframe_outcome store_facade bucket_store_client
              "project" "weather" sample_frame None (Some [("site", "A")])
              fresh_world eq_refl) as (record & names & Hres & _).
  cbv zeta in Hres. rewrite Hres. reflexivity.
Defined.

Lemma write_a_dataframe_keeps_frame_witness :
  rectangular sample_frame /\
  exists record names,
    trace (write_a_dataframe store_facade "project" "weather" sample_frame None
             (Some [("temp", "x")]) fresh_world).2
    = [EvWriteFrame "project" record "weather" default_tag_columns names] /\
    rectangular record.
Proof.
  assert (Hr : rectangular sample_frame)
    by (repeat constructor).
  split; [exact Hr|].
  destruct (write_a_dataframe_keeps_frame store_facade "project" "weather"
              sample_frame None [("temp", "x")] fresh_world)
    as (record & names & added & Ht & _ & _ & _ & _ & Hrect).
  exists record, names. split; [exact Ht|exact (Hrect Hr)].
Defined.

Lemma default_tag_columns_accumulate_witness :
  heap fresh_world !! default_tag_columns = Some [] /\
  heap (after_writes 3 store_facade "project" "weather" sample_frame
          [("site", "A")] fresh_world) !! default_tag_columns
  = Some ["site"; "site"; "site"].
Proof.
  split; [reflexivity|].
  exact (proj1 (default_tag_columns_accumulate store_facade "project" "weather"
                  sample_frame [("site", "A")] fresh_world [] 3 eq_refl)).
Defined.

Lemma facade_keeps_list_objects_witness :
  caller_list <> default default_tag_columns None /\
  heap (write_a_dataframe store_facade "project" "weather" sample_frame None
          (Some [("site", "A")])
          {| heap := sample_heap; db := ∅; trace := [] |}).2 !! caller_list
  = Some ["device"].
Proof.
  assert (Hne : caller_list <> default default_tag_columns None)
    by discriminate.
  split; [exact Hne|].
  destruct (facade_keeps_list_objects store_facade
              (fun _ _ _ => bucket_store_client) None None default_organization
              None None "b"
              {| kw_project := None; kw_fields := None; kw_start_time := None;
                 kw_end_time := None; kw_precision := None; kw_other := [] |}
              "project" [] "weather" sample_frame None
              {| heap := sample_heap; db := ∅; trace := [] |})
    as (_ & _ & _ & _ & _ & _ & _ & _ & Hother).
  rewrite (Hother [("site", "A")] caller_list Hne). reflexivity.
Defined.
